(** * gorm-auditable: audit hooks for gorm, embedded in Rocq

    The development follows [audit.go].  The hooks [Create], [Update] and
    [Delete], the snapshot reader [getDataBeforeOperation], the registration
    entry point [RegisterCallbacks] and the helpers [getCurrentUser],
    [getKeyFromData] and [prepareData] are translated function by function.

    Go's effects are made explicit:
    - a run-time panic is the [Panicked] outcome of a computation;
    - [log.Println] appends a line to the log kept in the [World];
    - the database behind gorm is an in-memory [World]: business tables
      (table name, then primary key, to row), the rows of [audit_logs], and
      the fault, if any, with which the storage layer answers reads and
      writes. *)

From stdpp Require Import gmap strings list fin_maps.

Open Scope string_scope.

Local Set Warnings "-register-all".

(** ** Dynamic values *)

(** A value held in a Go [interface{}]: what [encoding/json] decodes into,
    and what a [context.Context] may carry.  [AFunc] stands for the values
    [encoding/json] refuses to encode (functions, channels). *)
Inductive Any : Type :=
| ANil
| ABool (b : bool)
| ANum (n : Z)
| AString (s : string)
| ASlice (l : list Any)
| AMap (m : gmap string Any)
| AFunc.

(** The outcome of running Go code: a normal return or a panic. *)
Inductive Outcome (A : Type) : Type :=
| Returned (a : A)
| Panicked (msg : string).
Arguments Returned {A} a.
Arguments Panicked {A} msg.

(** [x.(string)]: the unchecked type assertion of Go.  It panics unless the
    dynamic type of [x] is [string]; a nil interface panics too. *)
Definition assert_string (x : Any) : Outcome string :=
  match x with
  | AString s => Returned s
  | ANil => Panicked "interface conversion: interface {} is nil, not string"
  | ABool _ => Panicked "interface conversion: interface {} is bool, not string"
  | ANum _ => Panicked "interface conversion: interface {} is float64, not string"
  | ASlice _ => Panicked "interface conversion: interface {} is []interface {}, not string"
  | AMap _ => Panicked "interface conversion: interface {} is map[string]interface {}, not string"
  | AFunc => Panicked "interface conversion: interface {} is func(), not string"
  end.

(** ** Contexts *)

(** A context key is compared with [==] on interfaces: dynamic type and
    value.  [ContextKey("email")] differs from the plain string ["email"]. *)
Record Key : Type := mkKey { key_type : string; key_text : string }.

#[global] Instance Key_eq_dec : EqDecision Key.
Proof. solve_decision. Defined.

(** [type ContextKey string] *)
Definition ContextKey (s : string) : Key := mkKey "audited.ContextKey" s.

Definition ContextKeyEmail : Key := ContextKey "email".

Definition AuditTable : string := "audit_logs".

(** A [context.Context]: the bindings added by [context.WithValue], the
    innermost first, over [context.Background()]. *)
Definition Context : Type := list (Key * Any).

Definition Background : Context := [].

Definition WithValue (parent : Context) (k : Key) (v : Any) : Context :=
  (k, v) :: parent.

(** [ctx.Value(k)]: the innermost binding of [k], nil when there is none. *)
Fixpoint ctx_Value (ctx : Context) (k : Key) : Any :=
  match ctx with
  | [] => ANil
  | (k', v) :: parent => if decide (k' = k) then v else ctx_Value parent k
  end.

(** ** Entities, as reflection sees them *)

(** A field of a struct value: its Go name, the name of its type as
    [reflect] prints it, its JSON key (none for a field hidden from JSON),
    and its value. *)
Record Field : Type := mkField {
  f_name : string;
  f_type : string;
  f_json : option string;
  f_val : Any
}.

(** A struct value of a model type: the rows of a table are such values. *)
Record Entity : Type := mkEntity {
  e_type : string;
  e_table : string;
  e_fields : list Field
}.

(** [db.Statement.ReflectValue]: the in-flight value, pointers removed.
    It is a valid value, as gorm sets it from the destination of the
    operation. *)
Inductive Value : Type :=
| VStruct (e : Entity)
| VSlice (elem_type elem_table : string) (es : list Entity)
| VOther (ty : string).

Inductive Kind : Type := Struct | Slice | OtherKind.

Definition Value_Kind (v : Value) : Kind :=
  match v with
  | VStruct _ => Struct
  | VSlice _ _ _ => Slice
  | VOther _ => OtherKind
  end.

#[global] Instance Kind_eq_dec : EqDecision Kind.
Proof. solve_decision. Defined.

(** [v.FieldByName(name)]: the field, or the zero [reflect.Value] (here
    [None]) when the struct has no field of that name. *)
Definition FieldByName (e : Entity) (name : string) : option Field :=
  List.find (fun f => bool_decide (f_name f = name)) (e_fields e).

(** [reflect.Value.String]: the string itself for a value of kind string,
    ["<invalid Value>"] for the zero Value, ["<T Value>"] for a value of
    another type [T].  It never panics. *)
Definition Value_String (fv : option Field) : string :=
  match fv with
  | None => "<invalid Value>"
  | Some f =>
      match f_val f with
      | AString s => s
      | _ => "<" ++ f_type f ++ " Value>"
      end
  end.

(** The model type of the in-flight value: [reflect.TypeOf(v.Interface())]. *)
Inductive GoType : Type :=
| TStruct (name table : string)
| TSlice (elem_name elem_table : string)
| TOther (name : string).

Definition reflect_TypeOf (v : Value) : GoType :=
  match v with
  | VStruct e => TStruct (e_type e) (e_table e)
  | VSlice n t _ => TSlice n t
  | VOther n => TOther n
  end.

(** ** The gorm handle *)

Record Schema : Type := mkSchema { Table : string }.

Record Statement : Type := mkStatement {
  Stmt_Schema : option Schema;
  Stmt_ReflectValue : Value;
  Stmt_Context : Context
}.

(** [*gorm.DB] as a hook receives it. *)
Record DB : Type := mkDB {
  DB_Statement : Statement;
  DB_Error : option string;
  DB_DryRun : bool
}.

(** ** The audit log model *)

(** [datatypes.JSON] is a byte slice.  [Encoded v] is the JSON text of [v]
    (object keys sorted, as [encoding/json] writes maps); [NoBytes] is the
    nil slice. *)
Inductive JSON : Type :=
| Encoded (doc : Any)
| NoBytes.

Definition uuid_Nil : string := "00000000-0000-0000-0000-000000000000".

Record AuditLog : Type := mkAuditLog {
  Id : string;
  TableName : string;
  OperationType : string;
  ObjectId : string;
  Data : JSON;
  UserId : string;
  CreatedAt : Z
}.

(** ** Results with an error *)

Inductive Result (A : Type) : Type :=
| Ok (a : A)
| Err (e : string).
Arguments Ok {A} a.
Arguments Err {A} e.

(** ** encoding/json, on trees *)

(** Whether [encoding/json] can encode a value. *)
Fixpoint encodable (v : Any) : bool :=
  match v with
  | AFunc => false
  | ASlice l => forallb encodable l
  | AMap m => map_fold (fun _ x acc => encodable x && acc) true m
  | _ => true
  end.

(** [json.Marshal] of an [interface{}] value. *)
Definition json_Marshal (v : Any) : Result Any :=
  if encodable v then Ok v else Err "json: unsupported type".

(** The JSON object a struct value is encoded as: one member per field
    visible to JSON. *)
Definition field_member (f : Field) : option (string * Any) :=
  match f_json f with
  | Some k => Some (k, f_val f)
  | None => None
  end.

Definition entity_fields (e : Entity) : gmap string Any :=
  list_to_map (omap field_member (e_fields e)).

(** What a read hands back: the struct scanned from the row found. *)
Inductive Fetched : Type :=
| FStruct (e : Entity).

Definition fetched_tree (obj : Fetched) : Any :=
  match obj with
  | FStruct e => AMap (entity_fields e)
  end.

(** [json.Unmarshal(bytes, &objMap)] into a [map[string]interface{}]: an
    object adds its members to the map, [null] leaves the map as it is, any
    other document is an error. *)
Definition json_Unmarshal_map (doc : Any) (objMap : gmap string Any)
  : gmap string Any * option string :=
  match doc with
  | AMap m => (m ∪ objMap, None)
  | ANil => (objMap, None)
  | _ => (objMap,
          Some "json: cannot unmarshal into Go value of type map[string]interface {}")
  end.

(** ** The world behind the handle *)

(** The storage gorm talks to, and the process log.  [read_fault] and
    [write_fault] are the error, if any, with which the storage layer
    answers a read and a write (a lost connection, a violated constraint). *)
Record World : Type := mkWorld {
  tables : gmap string (gmap string Entity);
  audit_logs : list AuditLog;
  read_fault : option string;
  write_fault : option string;
  log : list string
}.

(** Go code running against the world: it returns or panics, and leaves a
    world behind. *)
Definition Go (A : Type) : Type := World -> Outcome A * World.

Definition ret {A : Type} (a : A) : Go A := fun w => (Returned a, w).

Definition bind {A B : Type} (m : Go A) (k : A -> Go B) : Go B :=
  fun w =>
    match m w with
    | (Returned a, w') => k a w'
    | (Panicked msg, w') => (Panicked msg, w')
    end.

Definition lift {A : Type} (o : Outcome A) : Go A := fun w => (o, w).

#[global] Instance Go_ret : MRet Go := @ret.
#[global] Instance Go_bind : MBind Go := fun A B k m => bind m k.

(** [log.Println(line)] *)
Definition log_Println (line : string) : Go unit :=
  fun w => (Returned tt,
            mkWorld (tables w) (audit_logs w) (read_fault w) (write_fault w)
                    (log w ++ [line])).

(** ** The storage collaborator *)

Definition ErrRecordNotFound : string := "record not found".

(** The message of [gorm.ErrUnsupportedDataType].  gorm wraps it with the
    printed destination, an address here, and a hint to set the table;
    both are left out. *)
Definition ErrUnsupportedDataType : string := "unsupported data type".

(** The panic of [reflect] when gorm scans a row into a slice it reaches
    through an [interface{}]. *)
Definition scan_panic : string :=
  "reflect: reflect.Value.Set using unaddressable value".

(** The row of table [t] whose primary key reads [pk]. *)
Definition find_row (w : World) (t pk : string) : option Entity :=
  match tables w !! t with
  | Some rows => rows !! pk
  | None => None
  end.

(** [db.Session(&gorm.Session{SkipHooks: true, NewDB: true}).
       Where("id = ?", pk).First(&targetObj).Error], with [targetObj] a new
    value of type [ty] held in an [interface{}]: the row found, or the
    error of the session.  A struct is scanned into; for a slice the query
    runs, and gorm panics when it has a row to scan, the slice behind the
    interface not being settable.  The read leaves the world as it is. *)
Definition session_First (ty : GoType) (pk : string) : Go (Result Fetched) :=
  fun w =>
    match read_fault w with
    | Some e => (Returned (Err e), w)
    | None =>
        match ty with
        | TStruct _ t =>
            match find_row w t pk with
            | Some e => (Returned (Ok (FStruct e)), w)
            | None => (Returned (Err ErrRecordNotFound), w)
            end
        | TSlice _ t =>
            match find_row w t pk with
            | Some _ => (Panicked scan_panic, w)
            | None => (Returned (Err ErrRecordNotFound), w)
            end
        | TOther _ => (Returned (Err ErrUnsupportedDataType), w)
        end
    end.

(** [db.Session(&gorm.Session{SkipHooks: true, NewDB: true}).
       Table(AuditTable).Create(auditLog).Error].  The session is a new
    handle: its error is returned, the handle [db] of the in-flight
    operation is not written.  The session inherits the dry-run mode of
    [db], in which nothing is inserted and nothing fails. *)
Definition session_Create (db : DB) (auditLog : AuditLog) : Go (option string) :=
  fun w =>
    if DB_DryRun db then (Returned None, w)
    else
      match write_fault w with
      | Some e => (Returned (Some e), w)
      | None =>
          (Returned None,
           mkWorld (tables w) (audit_logs w ++ [auditLog]) (read_fault w)
                   (write_fault w) (log w))
      end.

(** ** audit.go *)

(** [getCurrentUser]: the actor stored in the context under
    [ContextKeyEmail]. *)
Definition getCurrentUser (ctx : Context) : Go string :=
  match ctx_Value ctx ContextKeyEmail with
  | ANil =>
      log_Println "user not specified in context, please specify user for audit purposes";;
      ret "ctx-nonspecified"
  | v => lift (assert_string v)
  end.

(** [getKeyFromData] *)
Definition getKeyFromData (key : string) (data : gmap string Any) : Outcome string :=
  match data !! key with
  | None => Returned ""
  | Some objId => assert_string objId
  end.

(** [prepareData]: the error of [json.Marshal] is dropped, the bytes are
    then nil. *)
Definition prepareData (data : gmap string Any) : JSON :=
  match json_Marshal (AMap data) with
  | Ok dataByte => Encoded dataByte
  | Err _ => NoBytes
  end.

(** The primary key [getDataBeforeOperation] queries with: empty, unless
    the in-flight value is a struct, whose field [Id] is then read through
    [reflect.Value.String]. *)
Definition primaryKeyValue (value : Value) : string :=
  match value with
  | VStruct e => Value_String (FieldByName e "Id")
  | _ => ""
  end.

(** [getDataBeforeOperation].  The nil map returned with an error reads as
    the empty map; the hooks do not use it. *)
Definition getDataBeforeOperation (db : DB)
  : Go (gmap string Any * option string) :=
  let objMap : gmap string Any := ∅ in
  if bool_decide (DB_Error db = None) && negb (DB_DryRun db) then
    let objectType := reflect_TypeOf (Stmt_ReflectValue (DB_Statement db)) in
    let value := Stmt_ReflectValue (DB_Statement db) in
    let primaryKeyValue := primaryKeyValue value in
    r ← session_First objectType primaryKeyValue;
    match r with
    | Err err =>
        log_Println ("gorm callback: error while finding target object: " ++ err);;
        ret (∅, Some err)
    | Ok targetObj =>
        match json_Marshal (fetched_tree targetObj) with
        | Err err => ret (∅, Some err)
        | Ok jsonBytes =>
            match json_Unmarshal_map jsonBytes objMap with
            | (objMap, Some err) => ret (objMap, Some err)
            | (objMap, None) => ret (objMap, None)
            end
        end
    end
  else ret (objMap, None).

(** The guard at the top of every hook:
    [db.Statement.Schema != nil && db.Statement.Schema.Table == AuditTable
     || db.Error != nil]; [&&] binds tighter than [||]. *)
Definition hook_guard (db : DB) : bool :=
  match Stmt_Schema (DB_Statement db) with
  | Some s => bool_decide (Table s = AuditTable)
  | None => false
  end
  || bool_decide (DB_Error db ≠ None).

(** [db.Statement.Schema.Table]: a nil [Schema] cannot be dereferenced. *)
Definition Schema_Table (db : DB) : Outcome string :=
  match Stmt_Schema (DB_Statement db) with
  | Some s => Returned (Table s)
  | None => Panicked "runtime error: invalid memory address or nil pointer dereference"
  end.

(** [Create]: the hook of the create callbacks.  The operands of the
    [AuditLog] literal are evaluated in the order they are written; Go
    leaves open whether the read of the table name comes before or after
    the calls that follow it, which matters to no statement below. *)
Definition Create (db : DB) : Go unit :=
  if hook_guard db then ret tt
  else
    '(recordMap, err) ← getDataBeforeOperation db;
    match err with
    | Some _ => ret tt
    | None =>
        objId ← lift (getKeyFromData "id" recordMap);
        table ← lift (Schema_Table db);
        let data := prepareData recordMap in
        user ← getCurrentUser (Stmt_Context (DB_Statement db));
        let auditLog := mkAuditLog uuid_Nil table "CREATE" objId data user 0 in
        err ← session_Create db auditLog;
        match err with
        | Some err =>
            log_Println ("error in audit log creation: " ++ err);;
            ret tt
        | None => ret tt
        end
    end.

(** [Update]: the hook of the update callbacks. *)
Definition Update (db : DB) : Go unit :=
  if hook_guard db then ret tt
  else
    '(recordMap, err) ← getDataBeforeOperation db;
    match err with
    | Some _ => ret tt
    | None =>
        objId ← lift (getKeyFromData "id" recordMap);
        table ← lift (Schema_Table db);
        let data := prepareData recordMap in
        user ← getCurrentUser (Stmt_Context (DB_Statement db));
        let auditLog := mkAuditLog uuid_Nil table "UPDATE" objId data user 0 in
        err ← session_Create db auditLog;
        match err with
        | Some err =>
            log_Println ("error in audit log creation: " ++ err);;
            ret tt
        | None => ret tt
        end
    end.

(** [Delete]: the hook of the delete callbacks. *)
Definition Delete (db : DB) : Go unit :=
  if hook_guard db then ret tt
  else
    '(recordMap, err) ← getDataBeforeOperation db;
    match err with
    | Some _ => ret tt
    | None =>
        objId ← lift (getKeyFromData "id" recordMap);
        table ← lift (Schema_Table db);
        let data := prepareData recordMap in
        user ← getCurrentUser (Stmt_Context (DB_Statement db));
        let auditLog := mkAuditLog uuid_Nil table "DELETE" objId data user 0 in
        err ← session_Create db auditLog;
        match err with
        | Some err =>
            log_Println ("error in audit log creation: " ++ err);;
            ret tt
        | None => ret tt
        end
    end.

(** The three hooks differ in the operation they record only. *)
Definition hook (op : string) (db : DB) : Go unit :=
  if hook_guard db then ret tt
  else
    '(recordMap, err) ← getDataBeforeOperation db;
    match err with
    | Some _ => ret tt
    | None =>
        objId ← lift (getKeyFromData "id" recordMap);
        table ← lift (Schema_Table db);
        let data := prepareData recordMap in
        user ← getCurrentUser (Stmt_Context (DB_Statement db));
        let auditLog := mkAuditLog uuid_Nil table op objId data user 0 in
        err ← session_Create db auditLog;
        match err with
        | Some err =>
            log_Println ("error in audit log creation: " ++ err);;
            ret tt
        | None => ret tt
        end
    end.

(** ** The callback chains of gorm *)

(** A callback of gorm receives the handle of the in-flight operation and
    may write it (gorm's own callbacks record their error in it). *)
Definition Callback : Type := DB -> World -> Outcome DB * World.

(** A hook of [audit.go] as a callback: no hook assigns to the handle it
    receives, which is therefore handed on as it came. *)
Definition callback_of (h : DB -> Go unit) : Callback :=
  fun db w =>
    match h db w with
    | (Returned _, w') => (Returned db, w')
    | (Panicked msg, w') => (Panicked msg, w')
    end.

(** The callbacks of one operation, in the order they run. *)
Definition Processor : Type := list (string * Callback).

(** [db.Callback()]: one chain per operation. *)
Record Callbacks : Type := mkCallbacks {
  cb_Create : Processor;
  cb_Update : Processor;
  cb_Delete : Processor
}.

(** The chain in which every callback named [name] is [fn]. *)
Definition replace_callback (name : string) (fn : Callback) (p : Processor)
  : Processor :=
  map (fun c : string * Callback =>
         if bool_decide (c.1 = name) then (name, fn) else c) p.

Fixpoint insert_before (anchor : string) (c : string * Callback) (p : Processor)
  : Processor :=
  match p with
  | [] => [c]
  | c' :: rest =>
      if bool_decide (c'.1 = anchor) then c :: c' :: rest
      else c' :: insert_before anchor c rest
  end.

(** [p.After(anchor).Register(name, fn)].  gorm sorts the callbacks anew:
    those registered before keep their places, and a callback to run after
    an anchor already placed goes to the end of the chain, behind every
    callback registered so far.  A name already registered is not refused:
    gorm warns in its own logger, returns no error, and the callback of that
    name is from then on the new one, in the place the name had. *)
Definition Register_After (anchor name : string) (fn : Callback) (p : Processor)
  : Result Processor :=
  if bool_decide (name ∈ p.*1) then Ok (replace_callback name fn p)
  else Ok (p ++ [(name, fn)])%list.

(** [p.Before(anchor).Register(name, fn)]: a new callback is placed right
    before the callback named [anchor], last when there is none; a name
    already registered takes the new callback where it stands. *)
Definition Register_Before (anchor name : string) (fn : Callback) (p : Processor)
  : Result Processor :=
  if bool_decide (name ∈ p.*1) then Ok (replace_callback name fn p)
  else Ok (insert_before anchor (name, fn) p).

(** Running a chain: every callback in turn, on the handle and the world
    the one before left; a panic unwinds through the chain. *)
Fixpoint Execute (p : Processor) (db : DB) (w : World) : Outcome DB * World :=
  match p with
  | [] => (Returned db, w)
  | (_, fn) :: rest =>
      match fn db w with
      | (Returned db', w') => Execute rest db' w'
      | (Panicked msg, w') => (Panicked msg, w')
      end
  end.

(** [RegisterCallbacks]: the chains after the call, and its error.  A
    registration made before a failing one would stay. *)
Definition RegisterCallbacks (cbs : Callbacks) : Callbacks * option string :=
  match Register_After "gorm:create" "custom_plugin:create_audit_log"
          (callback_of Create) (cb_Create cbs) with
  | Err err => (cbs, Some err)
  | Ok creates =>
      let cbs := mkCallbacks creates (cb_Update cbs) (cb_Delete cbs) in
      match Register_After "gorm:update" "custom_plugin:update_audit_log"
              (callback_of Update) (cb_Update cbs) with
      | Err err => (cbs, Some err)
      | Ok updates =>
          let cbs := mkCallbacks (cb_Create cbs) updates (cb_Delete cbs) in
          match Register_Before "gorm:delete" "custom_plugin:delete_audit_log"
                  (callback_of Delete) (cb_Delete cbs) with
          | Err err => (cbs, Some err)
          | Ok deletes =>
              (mkCallbacks (cb_Create cbs) (cb_Update cbs) deletes, None)
          end
      end
  end.

(** ** A storage engine to run the hooks against *)

Definition set_tables (t : gmap string (gmap string Entity)) (w : World) : World :=
  mkWorld t (audit_logs w) (read_fault w) (write_fault w) (log w).

Definition table_rows (w : World) (t : string) : gmap string Entity :=
  default ∅ (tables w !! t).

(** The row is stored under the text of its field [Id]. *)
Definition put_row (t : string) (e : Entity) (w : World) : World :=
  set_tables (<[t := <[Value_String (FieldByName e "Id") := e]> (table_rows w t)]>
                (tables w)) w.

Definition drop_row (t pk : string) (w : World) : World :=
  set_tables (<[t := delete pk (table_rows w t)]> (tables w)) w.

Definition statement_table (db : DB) : string :=
  match Stmt_Schema (DB_Statement db) with
  | Some s => Table s
  | None => ""
  end.

(** A model of [gorm:create] and of [gorm:update]: the in-flight struct, or
    every struct of the in-flight slice, is written to the table of the
    statement. *)
Definition gorm_save : Callback :=
  fun db w =>
    if bool_decide (DB_Error db = None) && negb (DB_DryRun db) then
      match Stmt_ReflectValue (DB_Statement db) with
      | VStruct e => (Returned db, put_row (statement_table db) e w)
      | VSlice _ _ es =>
          (Returned db, foldl (fun w e => put_row (statement_table db) e w) w es)
      | VOther _ =>
          (Returned (mkDB (DB_Statement db) (Some ErrUnsupportedDataType)
                          (DB_DryRun db)), w)
      end
    else (Returned db, w).

(** A model of [gorm:delete] whose conditions select the row with primary
    key [pk]: [db.Delete(&T{}, pk)]. *)
Definition gorm_delete (pk : string) : Callback :=
  fun db w =>
    if bool_decide (DB_Error db = None) && negb (DB_DryRun db) then
      (Returned db, drop_row (statement_table db) pk w)
    else (Returned db, w).

Definition default_callbacks (pk : string) : Callbacks :=
  mkCallbacks [("gorm:create", gorm_save)] [("gorm:update", gorm_save)]
              [("gorm:delete", gorm_delete pk)].

Definition empty_world : World := mkWorld ∅ [] None None [].

(** The entity of the scenarios: [Widget{Id: id, Name: name}] of table
    [widgets]. *)
Definition widget (id name : string) : Entity :=
  mkEntity "Widget" "widgets"
    [mkField "Id" "string" (Some "id") (AString id);
     mkField "Name" "string" (Some "name") (AString name)].

Definition operation (v : Value) (ctx : Context) : DB :=
  mkDB (mkStatement (Some (mkSchema "widgets")) v ctx) None false.

Definition alice : Context := WithValue Background ContextKeyEmail (AString "alice@example.com").

(** The world after the warning of [getCurrentUser]. *)
Definition warn_no_user (w : World) : World :=
  mkWorld (tables w) (audit_logs w) (read_fault w) (write_fault w)
    (log w ++ ["user not specified in context, please specify user for audit purposes"]).

(** A context whose actor is a number. *)
Definition numbered : Context := WithValue Background ContextKeyEmail (ANum 7).

(** A struct without a field [Id]. *)
Definition gadget (code : string) : Entity :=
  mkEntity "Gadget" "gadgets" [mkField "Code" "string" (Some "code") (AString code)].

(** The hooks, each with the operation it records. *)
Definition hooks : list (string * (DB -> Go unit)) :=
  [("CREATE", Create); ("UPDATE", Update); ("DELETE", Delete)].

(** The world after [log.Println(line)]. *)
Definition logged (line : string) (w : World) : World := (log_Println line w).2.

(** An [AuditLog] as the struct value gorm is handed. *)
Definition auditLog_entity (a : AuditLog) : Entity :=
  mkEntity "AuditLog" AuditTable
    [mkField "Id" "uuid.UUID" (Some "id") (AString (Id a));
     mkField "TableName" "string" (Some "table_name") (AString (TableName a));
     mkField "OperationType" "string" (Some "operation_type")
       (AString (OperationType a));
     mkField "ObjectId" "string" (Some "object_id") (AString (ObjectId a));
     mkField "Data" "datatypes.JSON" (Some "data")
       (match Data a with Encoded doc => doc | NoBytes => ANil end);
     mkField "UserId" "string" (Some "user_id") (AString (UserId a));
     mkField "CreatedAt" "time.Time" (Some "created_at") (ANum (CreatedAt a))].

(** The handle of the session that writes the audit row:
    [db.Session(...).Table(AuditTable).Create(auditLog)].  Were a create
    callback run for that write, this is the handle it would receive, with
    the error [err] of the insert, if any. *)
Definition audit_write_handle (db : DB) (auditLog : AuditLog)
    (err : option string) : DB :=
  mkDB (mkStatement (Some (mkSchema AuditTable)) (VStruct (auditLog_entity auditLog))
          (Stmt_Context (DB_Statement db)))
       err (DB_DryRun db).

(** A world holding the widget of the scenarios. *)
Definition widget_world : World := put_row "widgets" (widget "42" "a") empty_world.

(** The same world, with an audit table that refuses writes. *)
Definition refusing_world : World :=
  mkWorld (tables widget_world) [] None (Some "connection refused") [].

(** An operation whose statement carries no schema, as when a map is
    created through [db.Table("widgets").Create(map...)]. *)
Definition schemaless (v : Value) (ctx : Context) (dryRun : bool) : DB :=
  mkDB (mkStatement None v ctx) None dryRun.

Definition a_map : Value := VOther "map[string]interface {}".

(** The world after the insert of one audit row. *)
Definition inserted (a : AuditLog) (w : World) : World :=
  mkWorld (tables w) (audit_logs w ++ [a]) (read_fault w) (write_fault w) (log w).

(** What an audited mutation whose hook runs at the end of its chain
    amounts to.  [before] is the chain of the operation before registration,
    [after] the chain after it; [m] is the callback of the storage engine
    named [anchor], the mutation itself, [pre] the callbacks before it and
    [post] the callbacks after it, the commit among them.  The hook runs
    when all of them have run.  When the chain has ended without error on a
    struct of a table other than the audit table, the row [row] stored
    under the key of that struct is read and encoded, the id and the actor
    are resolved and the audit table accepts the write, then the chain with
    the hook ends as the chain without it, with exactly one audit row more,
    for [op], whose data is [row]. *)
Definition audits_after_mutation (op anchor : string) (before after : Processor)
  : Prop :=
  ∀ (pre post : Processor) (m : Callback) (db db0 db1 db2 : DB)
    (w w0 w1 w2 w3 : World)
    (s : Schema) (e row : Entity) (objId user : string),
    before = (pre ++ (anchor, m) :: post)%list →
    Execute pre db w = (Returned db0, w0) →
    m db0 w0 = (Returned db1, w1) →
    Execute post db1 w1 = (Returned db2, w2) →
    DB_Error db2 = None → DB_DryRun db2 = false →
    Stmt_Schema (DB_Statement db2) = Some s → Table s ≠ AuditTable →
    Stmt_ReflectValue (DB_Statement db2) = VStruct e →
    read_fault w2 = None → write_fault w2 = None →
    find_row w2 (e_table e) (primaryKeyValue (VStruct e)) = Some row →
    encodable (AMap (entity_fields row)) = true →
    getKeyFromData "id" (entity_fields row) = Returned objId →
    getCurrentUser (Stmt_Context (DB_Statement db2)) w2 = (Returned user, w3) →
    let a := mkAuditLog uuid_Nil (Table s) op objId
               (Encoded (AMap (entity_fields row))) user 0 in
    Execute after db w = (Returned db2, inserted a w3) ∧
    audit_logs (inserted a w3) = (audit_logs w2 ++ [a])%list ∧
    tables (inserted a w3) = tables w2.

(** The same for a hook that runs before the mutation: [row] is the row
    the storage holds when the hook fires, the mutation [m] runs next, on
    the handle it would have received without the hook. *)
Definition audits_before_mutation (op anchor : string) (before after : Processor)
  : Prop :=
  ∀ (pre post : Processor) (m : Callback) (db db0 : DB) (w w0 w2 : World)
    (s : Schema) (e row : Entity) (objId user : string),
    before = (pre ++ (anchor, m) :: post)%list → anchor ∉ pre.*1 →
    Execute pre db w = (Returned db0, w0) →
    DB_Error db0 = None → DB_DryRun db0 = false →
    Stmt_Schema (DB_Statement db0) = Some s → Table s ≠ AuditTable →
    Stmt_ReflectValue (DB_Statement db0) = VStruct e →
    read_fault w0 = None → write_fault w0 = None →
    find_row w0 (e_table e) (primaryKeyValue (VStruct e)) = Some row →
    encodable (AMap (entity_fields row)) = true →
    getKeyFromData "id" (entity_fields row) = Returned objId →
    getCurrentUser (Stmt_Context (DB_Statement db0)) w0 = (Returned user, w2) →
    let a := mkAuditLog uuid_Nil (Table s) op objId
               (Encoded (AMap (entity_fields row))) user 0 in
    Execute after db w = Execute ((anchor, m) :: post) db0 (inserted a w2) ∧
    audit_logs (inserted a w2) = (audit_logs w0 ++ [a])%list ∧
    tables (inserted a w2) = tables w0.

(** [func (c ContextKey) String() string] *)
Definition ContextKey_String (c : Key) : string := key_text c.

(** The runs of a hook, one constructor per exit of its body: the guard,
    a capture that panics or fails, a panic on the id, on the nil schema or
    on the actor,
    and the three answers of the audit write (dry run, refused, accepted).
    [HookRun op db w o w'] relates the handle and the world a hook starts
    from to its outcome and the world it leaves. *)
Inductive HookRun (op : string) (db : DB) (w : World)
  : Outcome unit -> World -> Prop :=
| run_guarded :
    hook_guard db = true →
    HookRun op db w (Returned tt) w
| run_capture_panicked (msg : string) (w1 : World) :
    hook_guard db = false →
    getDataBeforeOperation db w = (Panicked msg, w1) →
    HookRun op db w (Panicked msg) w1
| run_capture_failed (m : gmap string Any) (e : string) (w1 : World) :
    hook_guard db = false →
    getDataBeforeOperation db w = (Returned (m, Some e), w1) →
    HookRun op db w (Returned tt) w1
| run_id_panicked (m : gmap string Any) (w1 : World) (msg : string) :
    hook_guard db = false →
    getDataBeforeOperation db w = (Returned (m, None), w1) →
    getKeyFromData "id" m = Panicked msg →
    HookRun op db w (Panicked msg) w1
| run_schema_nil (m : gmap string Any) (w1 : World) (objId msg : string) :
    hook_guard db = false →
    getDataBeforeOperation db w = (Returned (m, None), w1) →
    getKeyFromData "id" m = Returned objId →
    Stmt_Schema (DB_Statement db) = None →
    HookRun op db w (Panicked msg) w1
| run_actor_panicked (m : gmap string Any) (w1 w2 : World) (objId msg : string)
    (s : Schema) :
    hook_guard db = false →
    getDataBeforeOperation db w = (Returned (m, None), w1) →
    getKeyFromData "id" m = Returned objId →
    Stmt_Schema (DB_Statement db) = Some s →
    getCurrentUser (Stmt_Context (DB_Statement db)) w1 = (Panicked msg, w2) →
    HookRun op db w (Panicked msg) w2
| run_dry (m : gmap string Any) (w1 w2 : World) (objId user : string)
    (s : Schema) :
    hook_guard db = false →
    getDataBeforeOperation db w = (Returned (m, None), w1) →
    getKeyFromData "id" m = Returned objId →
    Stmt_Schema (DB_Statement db) = Some s →
    getCurrentUser (Stmt_Context (DB_Statement db)) w1 = (Returned user, w2) →
    DB_DryRun db = true →
    HookRun op db w (Returned tt) w2
| run_refused (m : gmap string Any) (w1 w2 : World) (objId user e : string)
    (s : Schema) :
    hook_guard db = false →
    getDataBeforeOperation db w = (Returned (m, None), w1) →
    getKeyFromData "id" m = Returned objId →
    Stmt_Schema (DB_Statement db) = Some s →
    getCurrentUser (Stmt_Context (DB_Statement db)) w1 = (Returned user, w2) →
    DB_DryRun db = false → write_fault w2 = Some e →
    HookRun op db w (Returned tt)
      (logged ("error in audit log creation: " ++ e) w2)
| run_inserted (m : gmap string Any) (w1 w2 : World) (objId user : string)
    (s : Schema) :
    hook_guard db = false →
    getDataBeforeOperation db w = (Returned (m, None), w1) →
    getKeyFromData "id" m = Returned objId →
    Stmt_Schema (DB_Statement db) = Some s →
    getCurrentUser (Stmt_Context (DB_Statement db)) w1 = (Returned user, w2) →
    DB_DryRun db = false → write_fault w2 = None →
    HookRun op db w (Returned tt)
      (inserted (mkAuditLog uuid_Nil (Table s) op objId (prepareData m) user 0) w2).

(** A context key of the plain type [string]. *)
Definition string_key (s : string) : Key := mkKey "string" s.

(** A struct whose field [Id] carries no JSON tag: [encoding/json] then
    names the member after the field, ["Id"]. *)
Definition note (id text : string) : Entity :=
  mkEntity "Note" "notes"
    [mkField "Id" "string" (Some "Id") (AString id);
     mkField "Text" "string" (Some "Text") (AString text)].

Definition note_operation (v : Value) (ctx : Context) : DB :=
  mkDB (mkStatement (Some (mkSchema "notes")) v ctx) None false.

(** A chain whose hook runs last treats an operation that ends its chain
    in error, or on the audit table, as the chain without the hook does. *)
Definition unaudited_when_guarded (before after : Processor) : Prop :=
  ∀ (db db1 : DB) (w w1 : World),
    Execute before db w = (Returned db1, w1) →
    (DB_Error db1 ≠ None ∨
     ∃ s, Stmt_Schema (DB_Statement db1) = Some s ∧ Table s = AuditTable) →
    Execute after db w = Execute before db w.

(** A callback that fails: it records [err] on the handle. *)
Definition failing_callback (err : string) : Callback :=
  fun db w => (Returned (mkDB (DB_Statement db) (Some err) (DB_DryRun db)), w).

(** * Properties *)

(** Unfolds the plumbing of [Go]. *)
Ltac go_unfold :=
  unfold mbind, mret, Go_bind, Go_ret, bind, ret, lift, log_Println in *.

(** ** Identity resolution *)

Lemma ctx_Value_absent (ctx : Context) (k : Key) :
  k ∉ ctx.*1 → ctx_Value ctx k = ANil.
Proof.
  induction ctx as [|[k' v] ctx IH]; simpl; intros Hk; [done|].
  apply not_elem_of_cons in Hk as [Hne Hk].
  case_decide; [congruence | auto].
Qed.

(** A type assertion to [string] returns exactly on strings. *)
Lemma assert_string_Returned (x : Any) (s : string) :
  assert_string x = Returned s ↔ x = AString s.
Proof.
  split; [| by intros ->].
  destruct x; simpl; intros H; by inversion H.
Qed.

Lemma assert_string_Panicked (x : Any) :
  (∀ s, x ≠ AString s) → ∃ msg, assert_string x = Panicked msg.
Proof.
  destruct x; simpl; intros H; eauto.
  by destruct (H s).
Qed.

(** C7.  Identity resolution returns the string stored under the actor key
    ["email"] when the context carries one, and the sentinel
    ["ctx-nonspecified"], after one warning line in the log, when the key is
    absent; in both cases it returns normally. *)
Theorem getCurrentUser_resolves (ctx : Context) (w : World) :
  (∀ s, ctx_Value ctx ContextKeyEmail = AString s →
        getCurrentUser ctx w = (Returned s, w)) ∧
  (ContextKeyEmail ∉ ctx.*1 →
        getCurrentUser ctx w = (Returned "ctx-nonspecified", warn_no_user w)).
Proof.
  split.
  - intros s Hs. unfold getCurrentUser. rewrite Hs. done.
  - intros Habs. unfold getCurrentUser.
    rewrite (ctx_Value_absent _ _ Habs). done.
Qed.

Lemma getCurrentUser_resolves_witness :
  getCurrentUser alice empty_world = (Returned "alice@example.com", empty_world) ∧
  getCurrentUser Background empty_world
  = (Returned "ctx-nonspecified", warn_no_user empty_world).
Proof.
  split.
  - apply (proj1 (getCurrentUser_resolves alice empty_world)). reflexivity.
  - apply (proj2 (getCurrentUser_resolves Background empty_world)).
    unfold Background. simpl. apply not_elem_of_nil.
Defined.

(** C10.  When the context carries under ["email"] a non-nil value that is
    not a string, identity resolution panics on its unchecked type
    assertion; it returns normally only when the value is a string or the
    key carries nothing. *)
Theorem getCurrentUser_panics (ctx : Context) (w : World) :
  (ctx_Value ctx ContextKeyEmail ≠ ANil →
   (∀ s, ctx_Value ctx ContextKeyEmail ≠ AString s) →
   ∃ msg, getCurrentUser ctx w = (Panicked msg, w)) ∧
  (∀ u w', getCurrentUser ctx w = (Returned u, w') →
           ctx_Value ctx ContextKeyEmail = ANil ∨
           ctx_Value ctx ContextKeyEmail = AString u).
Proof.
  unfold getCurrentUser. split.
  - intros Hnil Hstr.
    destruct (ctx_Value ctx ContextKeyEmail) eqn:E; try done;
      try (eexists; reflexivity).
    by destruct (Hstr s).
  - intros u w' H.
    destruct (ctx_Value ctx ContextKeyEmail) eqn:E; auto;
      go_unfold; simpl in H; inversion H; auto.
Qed.

Lemma getCurrentUser_panics_witness :
  ∃ msg, getCurrentUser numbered empty_world = (Panicked msg, empty_world).
Proof.
  apply (proj1 (getCurrentUser_panics numbered empty_world)).
  - vm_compute. discriminate.
  - intros s. vm_compute. discriminate.
Defined.

(** ** Object id extraction *)

(** C4, as the specification words it, fails: a snapshot whose ["id"] is a
    number makes the extraction panic, where the empty string is expected. *)
Lemma getKeyFromData_number_panics :
  let data : gmap string Any := {["id" := ANum 42; "name" := AString "a"]} in
  data !! "id" = Some (ANum 42) ∧
  getKeyFromData "id" data
  = Panicked "interface conversion: interface {} is float64, not string" ∧
  getKeyFromData "id" data ≠ Returned "".
Proof. vm_compute. repeat split; discriminate. Qed.

(** C4, amended.  Looking up ["id"] in a snapshot returns the stored string
    when the key is present with a string, the empty string when the key is
    absent, and panics on the unchecked type assertion when the key is
    present with a value that is not a string (nil included). *)
Theorem getKeyFromData_cases (data : gmap string Any) :
  (∀ s, data !! "id" = Some (AString s) → getKeyFromData "id" data = Returned s) ∧
  (data !! "id" = None → getKeyFromData "id" data = Returned "") ∧
  (∀ v, data !! "id" = Some v → (∀ s, v ≠ AString s) →
        ∃ msg, getKeyFromData "id" data = Panicked msg).
Proof.
  unfold getKeyFromData. repeat split.
  - intros s ->. done.
  - intros ->. done.
  - intros v -> Hv. by apply assert_string_Panicked.
Qed.

Lemma getKeyFromData_cases_witness :
  getKeyFromData "id" {["id" := AString "42"]} = Returned "42" ∧
  getKeyFromData "id" (∅ : gmap string Any) = Returned "" ∧
  ∃ msg, getKeyFromData "id" {["id" := ANil]} = Panicked msg.
Proof.
  split; [|split].
  - apply (proj1 (getKeyFromData_cases {["id" := AString "42"]})). reflexivity.
  - apply (proj1 (proj2 (getKeyFromData_cases ∅))). reflexivity.
  - apply (proj2 (proj2 (getKeyFromData_cases {["id" := ANil]})) ANil).
    + reflexivity.
    + discriminate.
Defined.

(** ** The primary key of the snapshot read *)

(** C8, as the specification words it, fails: a struct lacking a field [Id]
    does not yield the empty key but the text [reflect] prints for an
    invalid value, and an [Id] that is not a string yields the text for its
    type. *)
Lemma primaryKeyValue_struct_without_Id :
  primaryKeyValue (VStruct (gadget "g1")) = "<invalid Value>" ∧
  primaryKeyValue (VStruct (gadget "g1")) ≠ "" ∧
  primaryKeyValue
    (VStruct (mkEntity "User" "users" [mkField "Id" "uint" (Some "id") (ANum 7)]))
  = "<uint Value>".
Proof. vm_compute. repeat split; discriminate. Qed.

(** C8, amended.  The key of the snapshot read is empty for every value
    that is not a struct.  For a struct it is what [reflect.Value.String]
    gives for the field [Id]: the string itself when the field holds a
    string, ["<T Value>"] when it holds a value of another type [T], and
    ["<invalid Value>"] when the struct has no field [Id]. *)
Theorem primaryKeyValue_cases (value : Value) :
  (Value_Kind value ≠ Struct → primaryKeyValue value = "") ∧
  (∀ e, value = VStruct e →
     (∀ f s, FieldByName e "Id" = Some f → f_val f = AString s →
             primaryKeyValue value = s) ∧
     (∀ f, FieldByName e "Id" = Some f → (∀ s, f_val f ≠ AString s) →
             primaryKeyValue value = "<" ++ f_type f ++ " Value>") ∧
     (FieldByName e "Id" = None → primaryKeyValue value = "<invalid Value>")).
Proof.
  split.
  - destruct value; simpl; intros H; done.
  - intros e ->. simpl. repeat split.
    + intros f s -> Hs. simpl. by rewrite Hs.
    + intros f -> Hf. simpl. destruct (f_val f) eqn:E; try done.
      by destruct (Hf s).
    + intros ->. done.
Qed.

Lemma primaryKeyValue_cases_witness :
  primaryKeyValue (VSlice "Widget" "widgets" [widget "42" "a"]) = "" ∧
  primaryKeyValue (VStruct (widget "42" "a")) = "42" ∧
  primaryKeyValue (VStruct (gadget "g1")) = "<invalid Value>".
Proof.
  split; [|split].
  - apply (proj1 (primaryKeyValue_cases _)). discriminate.
  - apply (proj1 (proj2 (primaryKeyValue_cases _) (widget "42" "a") eq_refl)
             (mkField "Id" "string" (Some "id") (AString "42")) "42");
      reflexivity.
  - apply (proj2 (proj2 (proj2 (primaryKeyValue_cases _) (gadget "g1") eq_refl))).
    reflexivity.
Defined.

(** ** The hooks *)

Lemma hooks_are_hook (op : string) (h : DB -> Go unit) :
  (op, h) ∈ hooks → h = hook op.
Proof.
  unfold hooks. intros H.
  repeat (apply elem_of_cons in H as [H|H]; [by inversion H|]).
  by apply elem_of_nil in H.
Qed.

Lemma hook_guarded (op : string) (db : DB) (w : World) :
  hook_guard db = true → hook op db w = (Returned tt, w).
Proof. intros H. unfold hook. rewrite H. done. Qed.

Lemma hook_guard_true (db : DB) :
  hook_guard db = true ↔
  (∃ s, Stmt_Schema (DB_Statement db) = Some s ∧ Table s = AuditTable) ∨
  DB_Error db ≠ None.
Proof.
  unfold hook_guard. rewrite orb_true_iff, bool_decide_eq_true. split.
  - intros [H|H]; [left | by right].
    destruct (Stmt_Schema (DB_Statement db)) as [s|]; [|done].
    apply bool_decide_eq_true in H. eauto.
  - intros [(s & -> & Hs)|H]; [left | by right].
    by apply bool_decide_eq_true.
Qed.

Lemma hook_guard_false (db : DB) :
  hook_guard db = false → DB_Error db = None.
Proof.
  unfold hook_guard. intros H. apply orb_false_iff in H as [_ H].
  apply bool_decide_eq_false in H. by destruct (DB_Error db); [destruct H|].
Qed.

(** C3.  A hook invoked on an operation that targets the audit table, or
    that already carries an error, returns at once: the world, and with it
    the audit table and the log, is as before.  In particular the handle of
    the audit write itself, failed or not, passes no hook: the write of an
    audit row is never audited in turn. *)
Theorem hooks_skip_audit_table_and_failed (op : string) (h : DB -> Go unit)
    (db : DB) (w : World) :
  (op, h) ∈ hooks →
  (((∃ s, Stmt_Schema (DB_Statement db) = Some s ∧ Table s = AuditTable) ∨
    DB_Error db ≠ None) →
   h db w = (Returned tt, w) ∧ callback_of h db w = (Returned db, w)) ∧
  (∀ auditLog err,
     h (audit_write_handle db auditLog err) w = (Returned tt, w)).
Proof.
  intros Hh. rewrite (hooks_are_hook _ _ Hh). split.
  - intros Hg. apply hook_guard_true in Hg.
    unfold callback_of. by rewrite (hook_guarded _ _ _ Hg).
  - intros a err. apply hook_guarded, hook_guard_true.
    left. by exists (mkSchema AuditTable).
Qed.

Lemma hooks_skip_audit_table_and_failed_witness :
  let db := mkDB (mkStatement (Some (mkSchema "audit_logs"))
                    (VStruct (widget "42" "a")) alice) None false in
  let failed := mkDB (mkStatement (Some (mkSchema "widgets"))
                    (VStruct (widget "42" "a")) alice) (Some "duplicate key") false in
  Create db empty_world = (Returned tt, empty_world) ∧
  Delete failed empty_world = (Returned tt, empty_world).
Proof.
  split.
  - apply (hooks_skip_audit_table_and_failed "CREATE" Create).
    + unfold hooks. apply elem_of_cons. by left.
    + left. eexists. split; reflexivity.
  - apply (hooks_skip_audit_table_and_failed "DELETE" Delete).
    + unfold hooks. do 2 (apply elem_of_cons; right). apply elem_of_cons. by left.
    + right. discriminate.
Defined.

(** ** The snapshot reader *)

Lemma session_First_world (ty : GoType) (pk : string) (w w' : World)
    (o : Outcome (Result Fetched)) :
  session_First ty pk w = (o, w') → w' = w.
Proof.
  unfold session_First.
  destruct (read_fault w); [intros H; by inversion H|].
  destruct ty; try destruct (find_row w _ pk); intros H; by inversion H.
Qed.

Lemma getDataBeforeOperation_skipped (db : DB) (w : World) :
  DB_Error db ≠ None ∨ DB_DryRun db = true →
  getDataBeforeOperation db w = (Returned (∅, None), w).
Proof.
  unfold getDataBeforeOperation. intros [H|H].
  - rewrite bool_decide_eq_false_2 by done. done.
  - rewrite H, andb_false_r. done.
Qed.

Lemma getDataBeforeOperation_read_failed (db : DB) (w : World) (e : string) :
  DB_Error db = None → DB_DryRun db = false →
  session_First (reflect_TypeOf (Stmt_ReflectValue (DB_Statement db)))
    (primaryKeyValue (Stmt_ReflectValue (DB_Statement db))) w
  = (Returned (Err e), w) →
  getDataBeforeOperation db w
  = (Returned (∅, Some e),
     logged ("gorm callback: error while finding target object: " ++ e) w).
Proof.
  intros He Hd Hr. unfold getDataBeforeOperation.
  rewrite He, Hd, bool_decide_eq_true_2 by done. simpl.
  go_unfold. rewrite Hr. done.
Qed.

(** The snapshot of a struct whose row is found: the members of the row. *)
Lemma getDataBeforeOperation_found (db : DB) (w : World) (e row : Entity) :
  DB_Error db = None → DB_DryRun db = false →
  Stmt_ReflectValue (DB_Statement db) = VStruct e →
  read_fault w = None →
  find_row w (e_table e) (primaryKeyValue (VStruct e)) = Some row →
  encodable (AMap (entity_fields row)) = true →
  getDataBeforeOperation db w = (Returned (entity_fields row, None), w).
Proof.
  intros He Hd Hv Hf Hrow Henc. unfold getDataBeforeOperation.
  rewrite He, Hd, Hv, bool_decide_eq_true_2 by done. cbn [andb negb].
  go_unfold. unfold session_First. rewrite Hf. cbn [reflect_TypeOf].
  rewrite Hrow. unfold json_Marshal. cbn [fetched_tree]. rewrite Henc.
  cbn [json_Unmarshal_map]. by rewrite (right_id_L ∅ (∪)).
Qed.

(** The snapshot reader writes nothing but the log. *)
Lemma getDataBeforeOperation_world (db : DB) (w w' : World)
    (o : Outcome (gmap string Any * option string)) :
  getDataBeforeOperation db w = (o, w') →
  tables w' = tables w ∧ audit_logs w' = audit_logs w ∧
  read_fault w' = read_fault w ∧ write_fault w' = write_fault w.
Proof.
  unfold getDataBeforeOperation.
  destruct (bool_decide (DB_Error db = None) && negb (DB_DryRun db));
    [| intros H; by inversion H].
  go_unfold.
  destruct (session_First
              (reflect_TypeOf (Stmt_ReflectValue (DB_Statement db)))
              (primaryKeyValue (Stmt_ReflectValue (DB_Statement db))) w)
    as [[r|msg] w1] eqn:Hread;
    apply session_First_world in Hread as ->; [| intros H; by inversion H].
  destruct r as [obj|err]; [| intros H; by inversion H].
  destruct (json_Marshal (fetched_tree obj)) as [doc|err];
    [| intros H; by inversion H].
  destruct (json_Unmarshal_map doc ∅) as [m [err|]]; intros H; by inversion H.
Qed.

(** C5.  When the snapshot read of a hook fails, the hook logs the failure
    and returns: no audit row is inserted, nothing panics, and the handle of
    the triggering operation, its error included, is handed on as it
    came. *)
Theorem hooks_abort_on_failed_read (op : string) (h : DB -> Go unit)
    (db : DB) (w : World) (e : string) :
  (op, h) ∈ hooks →
  hook_guard db = false → DB_DryRun db = false →
  session_First (reflect_TypeOf (Stmt_ReflectValue (DB_Statement db)))
    (primaryKeyValue (Stmt_ReflectValue (DB_Statement db))) w
  = (Returned (Err e), w) →
  let w' := logged ("gorm callback: error while finding target object: " ++ e) w in
  h db w = (Returned tt, w') ∧
  callback_of h db w = (Returned db, w') ∧
  audit_logs w' = audit_logs w ∧ tables w' = tables w.
Proof.
  intros Hh Hg Hd Hr w'. rewrite (hooks_are_hook _ _ Hh).
  assert (hook op db w = (Returned tt, w')) as Hrun.
  { unfold hook. rewrite Hg. go_unfold. fold (ret (A:=unit)).
    rewrite (getDataBeforeOperation_read_failed db w e
               (hook_guard_false _ Hg) Hd Hr). done. }
  unfold callback_of. rewrite Hrun. done.
Qed.

Lemma hooks_abort_on_failed_read_witness :
  let db := operation (VStruct (widget "42" "a")) alice in
  let w' := logged "gorm callback: error while finding target object: record not found"
              empty_world in
  Update db empty_world = (Returned tt, w') ∧
  callback_of Update db empty_world = (Returned db, w') ∧
  audit_logs w' = audit_logs empty_world ∧ tables w' = tables empty_world.
Proof.
  apply (hooks_abort_on_failed_read "UPDATE" Update
           (operation (VStruct (widget "42" "a")) alice) empty_world
           "record not found").
  - unfold hooks. apply elem_of_cons. right. apply elem_of_cons. by left.
  - reflexivity.
  - reflexivity.
  - reflexivity.
Defined.

Lemma getCurrentUser_world (ctx : Context) (w w' : World) (o : Outcome string) :
  getCurrentUser ctx w = (o, w') →
  tables w' = tables w ∧ audit_logs w' = audit_logs w ∧
  read_fault w' = read_fault w ∧ write_fault w' = write_fault w.
Proof.
  unfold getCurrentUser.
  destruct (ctx_Value ctx ContextKeyEmail); go_unfold; simpl;
    intros H; inversion H; done.
Qed.

Lemma session_Create_failed (db : DB) (a : AuditLog) (w w' : World) (e : string) :
  session_Create db a w = (Returned (Some e), w') →
  w' = w ∧ write_fault w = Some e ∧ DB_DryRun db = false.
Proof.
  unfold session_Create. destruct (DB_DryRun db); [intros H; by inversion H|].
  destruct (write_fault w); intros H; inversion H; done.
Qed.

(** One hook invocation that reaches the audit write. *)
Lemma hook_reaches_write (op : string) (db : DB) (w w1 w2 : World)
    (recordMap : gmap string Any) (objId user : string) (s : Schema) :
  hook_guard db = false →
  getDataBeforeOperation db w = (Returned (recordMap, None), w1) →
  getKeyFromData "id" recordMap = Returned objId →
  Stmt_Schema (DB_Statement db) = Some s →
  getCurrentUser (Stmt_Context (DB_Statement db)) w1 = (Returned user, w2) →
  hook op db w
  = (err ← session_Create db
             (mkAuditLog uuid_Nil (Table s) op objId (prepareData recordMap) user 0);
     match err with
     | Some err => log_Println ("error in audit log creation: " ++ err);; ret tt
     | None => ret tt
     end) w2.
Proof.
  intros Hg Hdata Hid Hs Huser. unfold hook, Schema_Table. rewrite Hg, Hs.
  go_unfold. rewrite Hdata, Hid, Huser. done.
Qed.

(** C6.  When the insert of the audit row fails, the hook logs the failure
    and returns: nothing panics, the audit table is as before, and the
    handle of the triggering operation, its error included, is handed on as
    it came. *)
Theorem hooks_swallow_failed_insert (op : string) (h : DB -> Go unit)
    (db : DB) (w w1 w2 w3 : World) (recordMap : gmap string Any)
    (objId user e : string) (s : Schema) :
  (op, h) ∈ hooks →
  hook_guard db = false →
  getDataBeforeOperation db w = (Returned (recordMap, None), w1) →
  getKeyFromData "id" recordMap = Returned objId →
  Stmt_Schema (DB_Statement db) = Some s →
  getCurrentUser (Stmt_Context (DB_Statement db)) w1 = (Returned user, w2) →
  session_Create db
    (mkAuditLog uuid_Nil (Table s) op objId (prepareData recordMap) user 0) w2
  = (Returned (Some e), w3) →
  let w' := logged ("error in audit log creation: " ++ e) w3 in
  h db w = (Returned tt, w') ∧
  callback_of h db w = (Returned db, w') ∧
  audit_logs w' = audit_logs w ∧ tables w' = tables w.
Proof.
  intros Hh Hg Hdata Hid Hs Huser Hins w'. rewrite (hooks_are_hook _ _ Hh).
  assert (hook op db w = (Returned tt, w')) as Hrun.
  { rewrite (hook_reaches_write op db w w1 w2 recordMap objId user s) by done.
    go_unfold. rewrite Hins. done. }
  unfold callback_of. rewrite Hrun. subst w'. unfold logged. cbn.
  repeat split.
  - apply session_Create_failed in Hins as (-> & _ & _).
    apply getCurrentUser_world in Huser as (_ & -> & _).
    by apply getDataBeforeOperation_world in Hdata as (_ & -> & _).
  - apply session_Create_failed in Hins as (-> & _ & _).
    apply getCurrentUser_world in Huser as (-> & _).
    by apply getDataBeforeOperation_world in Hdata as (-> & _).
Qed.

Lemma hooks_swallow_failed_insert_witness :
  let db := operation (VStruct (widget "42" "a")) alice in
  let w' := logged "error in audit log creation: connection refused" refusing_world in
  Create db refusing_world = (Returned tt, w') ∧
  callback_of Create db refusing_world = (Returned db, w') ∧
  audit_logs w' = audit_logs refusing_world ∧ tables w' = tables refusing_world.
Proof.
  apply (hooks_swallow_failed_insert "CREATE" Create
           (operation (VStruct (widget "42" "a")) alice)
           refusing_world refusing_world refusing_world refusing_world
           (entity_fields (widget "42" "a")) "42" "alice@example.com"
           "connection refused" (mkSchema "widgets")).
  - unfold hooks. apply elem_of_cons. by left.
  - reflexivity.
  - vm_compute. reflexivity.
  - vm_compute. reflexivity.
  - reflexivity.
  - reflexivity.
  - reflexivity.
Defined.

(** ** Statements without a schema *)

(** C9, as worded, fails: with no schema and no prior error the hook does
    not always panic.  A map created through [Table] has no schema; the
    snapshot read of a map fails, and the hook returns before it reads the
    table name. *)
Lemma schemaless_hook_returns :
  let db := schemaless a_map alice false in
  Stmt_Schema (DB_Statement db) = None ∧ DB_Error db = None ∧
  hook_guard db = false ∧
  Create db widget_world
  = (Returned tt,
     logged "gorm callback: error while finding target object: unsupported data type"
       widget_world) ∧
  ∀ msg w', Create db widget_world ≠ (Panicked msg, w').
Proof.
  cbn zeta. repeat split. intros msg w'. vm_compute. discriminate.
Qed.

(** C9, amended.  On a statement without schema and without prior error
    the guard does not fire.  The hook then panics whenever the snapshot is
    captured (or its capture skipped by a dry run): on the nil schema, if
    not before on the id of the snapshot.  It returns silently when the
    capture fails.  In no case is an audit row inserted. *)
Theorem schemaless_hook_panics_after_capture (op : string) (h : DB -> Go unit)
    (db : DB) (w : World) :
  (op, h) ∈ hooks →
  Stmt_Schema (DB_Statement db) = None → DB_Error db = None →
  hook_guard db = false ∧
  (∀ recordMap w1,
     getDataBeforeOperation db w = (Returned (recordMap, None), w1) →
     ∃ msg w', h db w = (Panicked msg, w')) ∧
  (∀ recordMap e w1,
     getDataBeforeOperation db w = (Returned (recordMap, Some e), w1) →
     h db w = (Returned tt, w1)) ∧
  (∀ o w', h db w = (o, w') → audit_logs w' = audit_logs w).
Proof.
  intros Hh Hs He. rewrite (hooks_are_hook _ _ Hh).
  assert (hook_guard db = false) as Hg.
  { unfold hook_guard. rewrite Hs, He. done. }
  assert (∀ recordMap w1,
     getDataBeforeOperation db w = (Returned (recordMap, None), w1) →
     ∃ msg, hook op db w = (Panicked msg, w1)) as Hpanic.
  { intros m w1 Hdata. unfold hook, Schema_Table. rewrite Hg, Hs.
    go_unfold. rewrite Hdata.
    destruct (getKeyFromData "id" m); eexists; reflexivity. }
  assert (∀ recordMap e w1,
     getDataBeforeOperation db w = (Returned (recordMap, Some e), w1) →
     hook op db w = (Returned tt, w1)) as Hret.
  { intros m e w1 Hdata. unfold hook. rewrite Hg. go_unfold.
    rewrite Hdata. done. }
  split; [done|]. split; [| split; [done|]].
  { intros m w1 Hdata. destruct (Hpanic _ _ Hdata) as [msg Hp]. eauto. }
  intros o w' Hrun.
  assert (∃ r w1, getDataBeforeOperation db w = (r, w1)) as (r & w1 & Hdata)
    by (destruct (getDataBeforeOperation db w); eauto).
  pose proof (getDataBeforeOperation_world _ _ _ _ Hdata) as (_ & Ha & _).
  destruct r as [[m [e|]]|msg].
  - rewrite (Hret _ _ _ Hdata) in Hrun. by inversion Hrun; subst.
  - destruct (Hpanic _ _ Hdata) as [msg Hp]. rewrite Hp in Hrun.
    by inversion Hrun; subst.
  - unfold hook in Hrun. rewrite Hg in Hrun. go_unfold.
    rewrite Hdata in Hrun. by inversion Hrun; subst.
Qed.

Lemma schemaless_hook_panics_after_capture_witness :
  let db := schemaless a_map alice true in
  ∃ msg w', Create db widget_world = (Panicked msg, w').
Proof.
  apply (proj1 (proj2 (schemaless_hook_panics_after_capture "CREATE" Create
           (schemaless a_map alice true) widget_world
           ltac:(unfold hooks; apply elem_of_cons; by left) eq_refl eq_refl))
         ∅ widget_world).
  reflexivity.
Defined.

(** ** Registration and the order of the chains *)

Lemma insert_before_at (anchor : string) (c : string * Callback) (m : Callback)
    (pre post : Processor) :
  anchor ∉ pre.*1 →
  insert_before anchor c (pre ++ (anchor, m) :: post)%list
  = (pre ++ c :: (anchor, m) :: post)%list.
Proof.
  induction pre as [|[n fn] pre IH]; simpl; intros Hn.
  - by rewrite bool_decide_eq_true_2.
  - apply not_elem_of_cons in Hn as [Hne Hn].
    rewrite bool_decide_eq_false_2 by congruence. by rewrite IH.
Qed.

Lemma Execute_app (p q : Processor) (db : DB) (w : World) :
  Execute (p ++ q)%list db w
  = match Execute p db w with
    | (Returned db', w') => Execute q db' w'
    | (Panicked msg, w') => (Panicked msg, w')
    end.
Proof.
  revert db w. induction p as [|[n fn] p IH]; simpl; intros db w; [done|].
  destruct (fn db w) as [[db'|msg] w']; [apply IH | done].
Qed.

(** On chains that do not hold the names of the hooks yet, registration
    puts the hooks of create and update at the end of their chains and the
    hook of delete right before its anchor. *)
Lemma RegisterCallbacks_chains (cbs cbs' : Callbacks) :
  RegisterCallbacks cbs = (cbs', None) →
  ("custom_plugin:create_audit_log" ∉ (cb_Create cbs).*1 →
   cb_Create cbs'
   = (cb_Create cbs ++ [("custom_plugin:create_audit_log", callback_of Create)])%list) ∧
  ("custom_plugin:update_audit_log" ∉ (cb_Update cbs).*1 →
   cb_Update cbs'
   = (cb_Update cbs ++ [("custom_plugin:update_audit_log", callback_of Update)])%list) ∧
  ("custom_plugin:delete_audit_log" ∉ (cb_Delete cbs).*1 →
   cb_Delete cbs'
   = insert_before "gorm:delete"
       ("custom_plugin:delete_audit_log", callback_of Delete) (cb_Delete cbs)).
Proof.
  unfold RegisterCallbacks, Register_After, Register_Before.
  repeat case_bool_decide; intros Hreg; inversion Hreg; cbn; repeat split; done.
Qed.

(** One hook invocation that goes through: exactly one audit row. *)
Lemma hook_audits (op : string) (db : DB) (w w2 : World) (s : Schema)
    (e row : Entity) (objId user : string) :
  DB_Error db = None → DB_DryRun db = false →
  Stmt_Schema (DB_Statement db) = Some s → Table s ≠ AuditTable →
  Stmt_ReflectValue (DB_Statement db) = VStruct e →
  read_fault w = None → write_fault w = None →
  find_row w (e_table e) (primaryKeyValue (VStruct e)) = Some row →
  encodable (AMap (entity_fields row)) = true →
  getKeyFromData "id" (entity_fields row) = Returned objId →
  getCurrentUser (Stmt_Context (DB_Statement db)) w = (Returned user, w2) →
  hook op db w
  = (Returned tt,
     inserted (mkAuditLog uuid_Nil (Table s) op objId
                 (Encoded (AMap (entity_fields row))) user 0) w2).
Proof.
  intros He Hd Hs Hne Hv Hrf Hwf Hrow Henc Hid Huser.
  assert (hook_guard db = false) as Hg.
  { unfold hook_guard. rewrite Hs, He. apply orb_false_iff.
    split; apply bool_decide_eq_false; [done | intros Hn; by apply Hn]. }
  rewrite (hook_reaches_write op db w w w2 (entity_fields row) objId user s Hg
             (getDataBeforeOperation_found db w e row He Hd Hv Hrf Hrow Henc)
             Hid Hs Huser).
  apply getCurrentUser_world in Huser as (_ & _ & _ & Hw2).
  rewrite Hwf in Hw2.
  go_unfold. unfold session_Create, prepareData, json_Marshal.
  rewrite Hd, Henc. unfold inserted.
  destruct (write_fault w2) eqn:E; [done|]. done.
Qed.

Lemma audits_after_append (op anchor name : string) (before : Processor) :
  audits_after_mutation op anchor before
    (before ++ [(name, callback_of (hook op))])%list.
Proof.
  intros pre post m db db0 db1 db2 w w0 w1 w2 w3 s e row objId user
         -> Hpre Hm Hpost He Hd Hs Hne Hv Hrf Hwf Hrow Henc Hid Huser a.
  split; [| split].
  - rewrite !Execute_app, Hpre. cbn [Execute]. rewrite Hm, Hpost.
    unfold callback_of.
    by rewrite (hook_audits op db2 w2 w3 s e row objId user).
  - apply getCurrentUser_world in Huser as (_ & Ha & _). cbn. by rewrite Ha.
  - apply getCurrentUser_world in Huser as (Ht & _). done.
Qed.

Lemma audits_before_insert (op anchor name : string) (before : Processor) :
  audits_before_mutation op anchor before
    (insert_before anchor (name, callback_of (hook op)) before).
Proof.
  intros pre post m db db0 w w0 w2 s e row objId user
         -> Hanchor Hpre He Hd Hs Hne Hv Hrf Hwf Hrow Henc Hid Huser a.
  split; [| split].
  - rewrite insert_before_at by done. rewrite Execute_app, Hpre.
    cbn [Execute]. unfold callback_of.
    by rewrite (hook_audits op db0 w0 w2 s e row objId user).
  - apply getCurrentUser_world in Huser as (_ & Ha & _). cbn. by rewrite Ha.
  - apply getCurrentUser_world in Huser as (Ht & _). done.
Qed.

(** ** Create and update *)

(** C1, as the specification words it, fails: a successful create need not
    leave an audit row.  A batch create hands the hook a slice; the key of
    the snapshot read is then empty, the read finds no row, and the hook
    returns.  The row is in its table, the audit table is empty. *)
Lemma batch_create_not_audited :
  let cbs := (RegisterCallbacks (default_callbacks "")).1 in
  let db := operation (VSlice "Widget" "widgets" [widget "42" "a"]) alice in
  let out := Execute (cb_Create cbs) db empty_world in
  (RegisterCallbacks (default_callbacks "")).2 = None ∧
  out.1 = Returned db ∧ DB_Error db = None ∧
  statement_table db ≠ AuditTable ∧
  find_row out.2 "widgets" "42" = Some (widget "42" "a") ∧
  audit_logs out.2 = [].
Proof. vm_compute. repeat split. discriminate. Qed.

(** C1, amended.  Registered on chains that do not hold their names yet,
    the hooks of create and update run at the end of their chains: after
    [gorm:create] and [gorm:update], and after every callback that was
    registered behind these.  For an operation whose chain has ended without
    error on a struct of a table other than the audit table, outside a dry
    run, whose row is found under the key of the struct when the hook fires
    and is encoded without error, whose id and actor are resolved without
    panic, and whose audit write is accepted, exactly one audit row is
    inserted: its operation is ["CREATE"] or ["UPDATE"] respectively and
    its data are the members of the row as the chain left it. *)
Theorem create_update_audited_after_mutation (cbs cbs' : Callbacks) :
  RegisterCallbacks cbs = (cbs', None) →
  "custom_plugin:create_audit_log" ∉ (cb_Create cbs).*1 →
  "custom_plugin:update_audit_log" ∉ (cb_Update cbs).*1 →
  audits_after_mutation "CREATE" "gorm:create" (cb_Create cbs) (cb_Create cbs') ∧
  audits_after_mutation "UPDATE" "gorm:update" (cb_Update cbs) (cb_Update cbs').
Proof.
  intros Hreg Hc Hu. apply RegisterCallbacks_chains in Hreg as (Hc' & Hu' & _).
  rewrite (Hc' Hc), (Hu' Hu). split; apply audits_after_append.
Qed.

Lemma create_update_audited_after_mutation_witness :
  let cbs' := (RegisterCallbacks (default_callbacks "")).1 in
  let created := operation (VStruct (widget "42" "a")) alice in
  let updated := operation (VStruct (widget "42" "b")) alice in
  let a := mkAuditLog uuid_Nil "widgets" "CREATE" "42"
             (Encoded (AMap (entity_fields (widget "42" "a"))))
             "alice@example.com" 0 in
  let b := mkAuditLog uuid_Nil "widgets" "UPDATE" "42"
             (Encoded (AMap (entity_fields (widget "42" "b"))))
             "alice@example.com" 0 in
  Execute (cb_Create cbs') created empty_world
  = (Returned created, inserted a widget_world) ∧
  audit_logs (inserted a widget_world) = [a] ∧
  Execute (cb_Update cbs') updated widget_world
  = (Returned updated, inserted b (put_row "widgets" (widget "42" "b") widget_world)).
Proof.
  cbn zeta.
  pose proof (create_update_audited_after_mutation (default_callbacks "")
                (RegisterCallbacks (default_callbacks "")).1 eq_refl) as Hreg.
  destruct Hreg as [Hc Hu].
  { by intros ?%list_elem_of_singleton. }
  { by intros ?%list_elem_of_singleton. }
  split; [| split].
  - apply (Hc [] [] gorm_save
             (operation (VStruct (widget "42" "a")) alice)
             (operation (VStruct (widget "42" "a")) alice)
             (operation (VStruct (widget "42" "a")) alice)
             (operation (VStruct (widget "42" "a")) alice)
             empty_world empty_world widget_world widget_world widget_world
             (mkSchema "widgets") (widget "42" "a") (widget "42" "a")
             "42" "alice@example.com");
      try reflexivity; try discriminate.
  - reflexivity.
  - apply (Hu [] [] gorm_save
             (operation (VStruct (widget "42" "b")) alice)
             (operation (VStruct (widget "42" "b")) alice)
             (operation (VStruct (widget "42" "b")) alice)
             (operation (VStruct (widget "42" "b")) alice)
             widget_world widget_world
             (put_row "widgets" (widget "42" "b") widget_world)
             (put_row "widgets" (widget "42" "b") widget_world)
             (put_row "widgets" (widget "42" "b") widget_world)
             (mkSchema "widgets") (widget "42" "b") (widget "42" "b")
             "42" "alice@example.com");
      try reflexivity; try discriminate.
Defined.

(** ** Delete *)

(** C2, as the specification words it, fails: a successful delete need not
    leave an audit row.  [db.Delete(&Widget{}, "42")] hands the hook a
    struct whose [Id] is empty; the snapshot read finds no row under the
    empty key and the hook returns.  The delete then removes the row, and
    the audit table is empty. *)
Lemma delete_by_condition_not_audited :
  let cbs := (RegisterCallbacks (default_callbacks "42")).1 in
  let db := operation (VStruct (widget "" "")) alice in
  let out := Execute (cb_Delete cbs) db widget_world in
  (RegisterCallbacks (default_callbacks "42")).2 = None ∧
  find_row widget_world "widgets" "42" = Some (widget "42" "a") ∧
  out.1 = Returned db ∧ DB_Error db = None ∧
  statement_table db ≠ AuditTable ∧
  find_row out.2 "widgets" "42" = None ∧
  audit_logs out.2 = [].
Proof. vm_compute. repeat split. discriminate. Qed.

(** C2, amended.  Registered on a chain that does not hold its name yet,
    the hook of delete runs right before [gorm:delete].  For a delete without prior error on a
    struct of a table other than the audit table, outside a dry run, whose
    row is found under the key of the struct when the hook fires and is
    encoded without error, whose id and actor are resolved without panic,
    and whose audit write is accepted, exactly one audit row is inserted:
    its operation is ["DELETE"] and its data are the members of the row as
    it is stored before the delete runs. *)
Theorem delete_audited_before_mutation (cbs cbs' : Callbacks) :
  RegisterCallbacks cbs = (cbs', None) →
  "custom_plugin:delete_audit_log" ∉ (cb_Delete cbs).*1 →
  audits_before_mutation "DELETE" "gorm:delete" (cb_Delete cbs) (cb_Delete cbs').
Proof.
  intros Hreg Hd. apply RegisterCallbacks_chains in Hreg as (_ & _ & Hd').
  rewrite (Hd' Hd). apply audits_before_insert.
Qed.

Lemma delete_audited_before_mutation_witness :
  let cbs' := (RegisterCallbacks (default_callbacks "42")).1 in
  let db := operation (VStruct (widget "42" "a")) alice in
  let a := mkAuditLog uuid_Nil "widgets" "DELETE" "42"
             (Encoded (AMap (entity_fields (widget "42" "a"))))
             "alice@example.com" 0 in
  Execute (cb_Delete cbs') db widget_world
  = (Returned db, drop_row "widgets" "42" (inserted a widget_world)) ∧
  audit_logs (inserted a widget_world) = [a] ∧
  find_row (drop_row "widgets" "42" (inserted a widget_world)) "widgets" "42" = None.
Proof.
  cbn zeta.
  pose proof (delete_audited_before_mutation (default_callbacks "42")
                (RegisterCallbacks (default_callbacks "42")).1 eq_refl) as Hd.
  specialize (Hd ltac:(by intros ?%list_elem_of_singleton)).
  split; [| split].
  - apply (Hd [] [] (gorm_delete "42")
             (operation (VStruct (widget "42" "a")) alice)
             (operation (VStruct (widget "42" "a")) alice)
             widget_world widget_world widget_world
             (mkSchema "widgets") (widget "42" "a") (widget "42" "a")
             "42" "alice@example.com");
      try reflexivity; try discriminate.
    apply not_elem_of_nil.
  - reflexivity.
  - reflexivity.
Defined.

(** * Further properties of the hooks *)

(** ** Every run of a hook *)

(** The three answers of the audit write. *)
Lemma session_Create_cases (db : DB) (a : AuditLog) (w : World) :
  (DB_DryRun db = true ∧ session_Create db a w = (Returned None, w)) ∨
  (DB_DryRun db = false ∧
   ∃ e, write_fault w = Some e ∧ session_Create db a w = (Returned (Some e), w)) ∨
  (DB_DryRun db = false ∧ write_fault w = None ∧
   session_Create db a w = (Returned None, inserted a w)).
Proof.
  unfold session_Create, inserted. destruct (DB_DryRun db); [by left|].
  right. destruct (write_fault w) as [e|] eqn:E; [left | right]; eauto.
Qed.

(** The hook takes one of the exits of [HookRun]. *)
Lemma hook_runs (op : string) (db : DB) (w : World) :
  HookRun op db w (hook op db w).1 (hook op db w).2.
Proof.
  unfold hook. destruct (hook_guard db) eqn:Hg; [by apply run_guarded|].
  go_unfold.
  assert (∃ r w1, getDataBeforeOperation db w = (r, w1)) as (r & w1 & Hdata)
    by (destruct (getDataBeforeOperation db w); eauto).
  rewrite Hdata. destruct r as [[m err]|msg]; [| by eapply run_capture_panicked].
  destruct err as [e|]; [by eapply run_capture_failed|].
  destruct (getKeyFromData "id" m) as [objId|msg] eqn:Hid;
    [| by eapply run_id_panicked].
  unfold Schema_Table.
  destruct (Stmt_Schema (DB_Statement db)) as [s|] eqn:Hs;
    [| by eapply run_schema_nil].
  destruct (getCurrentUser (Stmt_Context (DB_Statement db)) w1)
    as [[user|msg] w2] eqn:Huser; [| by eapply run_actor_panicked].
  destruct (session_Create_cases db
              (mkAuditLog uuid_Nil (Table s) op objId (prepareData m) user 0) w2)
    as [[Hd ->]|[(Hd & e & Hwf & ->)|(Hd & Hwf & ->)]].
  - by eapply run_dry.
  - by eapply run_refused.
  - by eapply run_inserted.
Qed.

Lemma hook_run_of (op : string) (db : DB) (w w' : World) (o : Outcome unit) :
  hook op db w = (o, w') → HookRun op db w o w'.
Proof.
  intros H. pose proof (hook_runs op db w) as Hr. by rewrite H in Hr.
Qed.

(** A run either leaves the audit table as it is or appends one row. *)
Lemma HookRun_world (op : string) (db : DB) (w w' : World) (o : Outcome unit) :
  HookRun op db w o w' →
  tables w' = tables w ∧ read_fault w' = read_fault w ∧
  write_fault w' = write_fault w ∧
  (audit_logs w' = audit_logs w ∨
   ∃ a, audit_logs w' = (audit_logs w ++ [a])%list ∧ o = Returned tt).
Proof.
  intros Hrun.
  destruct Hrun;
    repeat match goal with
    | H : getDataBeforeOperation _ _ = _ |- _ =>
        apply getDataBeforeOperation_world in H as (? & ? & ? & ?)
    | H : getCurrentUser _ _ = _ |- _ =>
        apply getCurrentUser_world in H as (? & ? & ? & ?)
    end;
    unfold logged, inserted; cbn;
    try (repeat split; [congruence ..| left; congruence]).
  repeat split; [congruence ..|]. right.
  replace (audit_logs w2) with (audit_logs w) by congruence.
  by eexists.
Qed.

(** X1.  Whatever a hook does, it leaves the business tables and the fault
    state of the storage as they were, and the audit table either as it was
    or longer by exactly one row; a run that panics has not inserted. *)
Theorem hooks_insert_at_most_one_row (op : string) (h : DB -> Go unit)
    (db : DB) (w w' : World) (o : Outcome unit) :
  (op, h) ∈ hooks → h db w = (o, w') →
  tables w' = tables w ∧ read_fault w' = read_fault w ∧
  write_fault w' = write_fault w ∧
  (audit_logs w' = audit_logs w ∨
   ∃ a, audit_logs w' = (audit_logs w ++ [a])%list ∧ o = Returned tt).
Proof.
  intros Hh Hrun. rewrite (hooks_are_hook _ _ Hh) in Hrun.
  by apply (HookRun_world op db), hook_run_of.
Qed.

Lemma hooks_insert_at_most_one_row_witness :
  let db := operation (VStruct (widget "42" "a")) Background in
  let w' := (Delete db widget_world).2 in
  tables w' = tables widget_world ∧ read_fault w' = read_fault widget_world ∧
  write_fault w' = write_fault widget_world ∧
  (audit_logs w' = audit_logs widget_world ∨
   ∃ a, audit_logs w' = (audit_logs widget_world ++ [a])%list ∧
        (Delete db widget_world).1 = Returned tt).
Proof.
  apply (hooks_insert_at_most_one_row "DELETE" Delete
           (operation (VStruct (widget "42" "a")) Background) widget_world).
  - unfold hooks. do 2 (apply elem_of_cons; right). apply elem_of_cons. by left.
  - apply surjective_pairing.
Defined.

(** ** What an inserted row says *)

(** A snapshot returned without error is empty when the capture was
    skipped, and otherwise holds the members of the row stored under the
    key of the in-flight struct. *)
Lemma capture_inv (db : DB) (w w1 : World) (m : gmap string Any) :
  getDataBeforeOperation db w = (Returned (m, None), w1) →
  w1 = w ∧
  (((DB_Error db ≠ None ∨ DB_DryRun db = true) ∧ m = ∅) ∨
   (DB_Error db = None ∧ DB_DryRun db = false ∧
    ∃ e row, Stmt_ReflectValue (DB_Statement db) = VStruct e ∧
             read_fault w = None ∧
             find_row w (e_table e) (primaryKeyValue (VStruct e)) = Some row ∧
             encodable (AMap (entity_fields row)) = true ∧
             m = entity_fields row)).
Proof.
  unfold getDataBeforeOperation.
  destruct (DB_Error db) as [err|] eqn:He.
  { rewrite bool_decide_eq_false_2 by done. cbn. go_unfold.
    intros H; inversion H; subst. split; [done|]. left. split; [by left | done]. }
  rewrite bool_decide_eq_true_2 by done.
  destruct (DB_DryRun db) eqn:Hd; cbn [andb negb].
  { go_unfold. intros H; inversion H; subst. split; [done|]. left. auto. }
  go_unfold. unfold session_First.
  destruct (read_fault w) eqn:Hrf; [intros H; by inversion H|].
  destruct (Stmt_ReflectValue (DB_Statement db)) as [e|n t es|n] eqn:Hv;
    cbn [reflect_TypeOf primaryKeyValue].
  - destruct (find_row w (e_table e) (Value_String (FieldByName e "Id")))
      as [row|] eqn:Hrow; [| intros H; by inversion H].
    unfold json_Marshal. cbn [fetched_tree].
    destruct (encodable (AMap (entity_fields row))) eqn:Henc;
      [| intros H; by inversion H].
    cbn [json_Unmarshal_map]. rewrite (right_id_L ∅ (∪)).
    intros H; inversion H; subst. split; [done|]. right.
    repeat split; try done. by exists e, row.
  - destruct (find_row w t "") as [row|]; intros H; by inversion H.
  - intros H; by inversion H.
Qed.

(** The snapshot reader panics in one case: a slice is in flight and the
    read has a row to scan. *)
Lemma capture_panic_inv (db : DB) (w w1 : World) (msg : string) :
  getDataBeforeOperation db w = (Panicked msg, w1) →
  w1 = w ∧ DB_Error db = None ∧ DB_DryRun db = false ∧ read_fault w = None ∧
  ∃ n t es row, Stmt_ReflectValue (DB_Statement db) = VSlice n t es ∧
                find_row w t "" = Some row.
Proof.
  unfold getDataBeforeOperation.
  destruct (DB_Error db) as [err|] eqn:He.
  { rewrite bool_decide_eq_false_2 by done. intros H; by inversion H. }
  rewrite bool_decide_eq_true_2 by done.
  destruct (DB_DryRun db) eqn:Hd; cbn [andb negb]; [intros H; by inversion H|].
  go_unfold. unfold session_First.
  destruct (read_fault w) eqn:Hrf; [intros H; by inversion H|].
  destruct (Stmt_ReflectValue (DB_Statement db)) as [e|n t es|n] eqn:Hv;
    cbn [reflect_TypeOf primaryKeyValue].
  - destruct (find_row w (e_table e) (Value_String (FieldByName e "Id")))
      as [row|]; [| intros H; by inversion H].
    unfold json_Marshal. cbn [fetched_tree].
    destruct (encodable (AMap (entity_fields row))); intros H; by inversion H.
  - destruct (find_row w t "") as [row|] eqn:Hrow; intros H; inversion H; subst.
    repeat split; try done. by exists n, t, es, row.
  - intros H; by inversion H.
Qed.

Lemma capture_panics (db : DB) (w : World) (n t : string) (es : list Entity)
    (row : Entity) :
  DB_Error db = None → DB_DryRun db = false → read_fault w = None →
  Stmt_ReflectValue (DB_Statement db) = VSlice n t es →
  find_row w t "" = Some row →
  getDataBeforeOperation db w = (Panicked scan_panic, w).
Proof.
  intros He Hd Hrf Hv Hrow. unfold getDataBeforeOperation.
  rewrite He, Hd, Hv, bool_decide_eq_true_2 by done. cbn [andb negb].
  go_unfold. unfold session_First. rewrite Hrf. cbn [reflect_TypeOf primaryKeyValue].
  by rewrite Hrow.
Qed.

Lemma getCurrentUser_Returned (ctx : Context) (w w' : World) (user : string) :
  getCurrentUser ctx w = (Returned user, w') →
  ctx_Value ctx ContextKeyEmail = AString user ∨
  (ctx_Value ctx ContextKeyEmail = ANil ∧ user = "ctx-nonspecified").
Proof.
  unfold getCurrentUser.
  destruct (ctx_Value ctx ContextKeyEmail); go_unfold; cbn;
    intros H; inversion H; auto.
Qed.

Lemma getCurrentUser_Panicked (ctx : Context) (w w' : World) (msg : string) :
  getCurrentUser ctx w = (Panicked msg, w') →
  w' = w ∧ ctx_Value ctx ContextKeyEmail ≠ ANil ∧
  ∀ s, ctx_Value ctx ContextKeyEmail ≠ AString s.
Proof.
  unfold getCurrentUser.
  destruct (ctx_Value ctx ContextKeyEmail); go_unfold; cbn;
    intros H; inversion H; done.
Qed.

Lemma hook_guard_off (db : DB) (s : Schema) :
  hook_guard db = false → Stmt_Schema (DB_Statement db) = Some s →
  Table s ≠ AuditTable.
Proof.
  unfold hook_guard. intros H Hs. rewrite Hs in H.
  apply orb_false_iff in H as [H _]. by apply bool_decide_eq_false in H.
Qed.

(** The run that appended a row is the run through all of the hook. *)
Lemma HookRun_appended (op : string) (db : DB) (w w' : World)
    (o : Outcome unit) (a : AuditLog) :
  HookRun op db w o w' →
  audit_logs w' = (audit_logs w ++ [a])%list →
  ∃ m w2 objId user s,
    hook_guard db = false ∧ DB_DryRun db = false ∧
    getDataBeforeOperation db w = (Returned (m, None), w) ∧
    getKeyFromData "id" m = Returned objId ∧
    Stmt_Schema (DB_Statement db) = Some s ∧
    getCurrentUser (Stmt_Context (DB_Statement db)) w = (Returned user, w2) ∧
    a = mkAuditLog uuid_Nil (Table s) op objId (prepareData m) user 0.
Proof.
  intros Hrun Happ.
  destruct (HookRun_world _ _ _ _ _ Hrun) as (_ & _ & _ & Hlog).
  assert (∀ l : list AuditLog, l ≠ (l ++ [a])%list) as Hgrow.
  { intros l Hl. apply (f_equal length) in Hl.
    rewrite length_app in Hl. cbn in Hl. lia. }
  destruct Hrun as [| | | | | | | |m w1 w2 objId user s Hg Hdata Hid Hs Huser Hd Hwf];
    try (exfalso;
         repeat match goal with
         | H : getDataBeforeOperation _ _ = _ |- _ =>
             apply getDataBeforeOperation_world in H as (_ & ? & _ & _)
         | H : getCurrentUser _ _ = _ |- _ =>
             apply getCurrentUser_world in H as (_ & ? & _ & _)
         end;
         unfold logged in Happ; cbn in Happ;
         apply (Hgrow (audit_logs w)); congruence).
  destruct (capture_inv _ _ _ _ Hdata) as [-> _].
  exists m, w2, objId, user, s. repeat split; try done.
  apply getCurrentUser_world in Huser as (_ & Ha & _).
  cbn in Happ. rewrite Ha in Happ. apply app_inv_head in Happ.
  by inversion Happ.
Qed.

(** X2.  A row a hook appends to the audit table describes a row of the
    storage: the operation carried no error, its schema names a table other
    than the audit table, its value is a struct, and the storage held a row
    under the key of that struct when the hook ran.  The audit row names
    that table and the operation of the hook, its data are the members of
    the stored row, its object id is the ["id"] member of the stored row,
    its actor is the string of the context or the sentinel, and its [Id] is
    left at the zero UUID. *)
Theorem appended_row_describes_stored_row (op : string) (h : DB -> Go unit)
    (db : DB) (w w' : World) (o : Outcome unit) (a : AuditLog) :
  (op, h) ∈ hooks → h db w = (o, w') →
  audit_logs w' = (audit_logs w ++ [a])%list →
  ∃ s e row,
    DB_Error db = None ∧
    Stmt_Schema (DB_Statement db) = Some s ∧ Table s ≠ AuditTable ∧
    Stmt_ReflectValue (DB_Statement db) = VStruct e ∧
    find_row w (e_table e) (primaryKeyValue (VStruct e)) = Some row ∧
    Id a = uuid_Nil ∧ TableName a = Table s ∧ OperationType a = op ∧
    Data a = Encoded (AMap (entity_fields row)) ∧
    getKeyFromData "id" (entity_fields row) = Returned (ObjectId a) ∧
    (ctx_Value (Stmt_Context (DB_Statement db)) ContextKeyEmail
     = AString (UserId a) ∨
     (ctx_Value (Stmt_Context (DB_Statement db)) ContextKeyEmail = ANil ∧
      UserId a = "ctx-nonspecified")).
Proof.
  intros Hh Hrun Happ. rewrite (hooks_are_hook _ _ Hh) in Hrun.
  apply hook_run_of in Hrun.
  destruct (HookRun_appended _ _ _ _ _ _ Hrun Happ)
    as (m & w2 & objId & user & s & Hg & Hd & Hdata & Hid & Hs & Huser & ->).
  destruct (capture_inv _ _ _ _ Hdata) as [_ [[[He|Hd'] _]|Hfound]].
  { by destruct He; apply hook_guard_false. }
  { congruence. }
  destruct Hfound as (He & _ & e & row & Hv & _ & Hrow & Henc & ->).
  exists s, e, row. cbn.
  repeat split; try done.
  - by apply hook_guard_off with db.
  - unfold prepareData, json_Marshal. by rewrite Henc.
  - by apply getCurrentUser_Returned in Huser.
Qed.

Lemma appended_row_describes_stored_row_witness :
  let db := operation (VStruct (widget "42" "a")) alice in
  let a := mkAuditLog uuid_Nil "widgets" "UPDATE" "42"
             (Encoded (AMap (entity_fields (widget "42" "a"))))
             "alice@example.com" 0 in
  ∃ s e row,
    DB_Error db = None ∧
    Stmt_Schema (DB_Statement db) = Some s ∧ Table s ≠ AuditTable ∧
    Stmt_ReflectValue (DB_Statement db) = VStruct e ∧
    find_row widget_world (e_table e) (primaryKeyValue (VStruct e)) = Some row ∧
    Id a = uuid_Nil ∧ TableName a = Table s ∧ OperationType a = "UPDATE" ∧
    Data a = Encoded (AMap (entity_fields row)) ∧
    getKeyFromData "id" (entity_fields row) = Returned (ObjectId a) ∧
    (ctx_Value (Stmt_Context (DB_Statement db)) ContextKeyEmail
     = AString (UserId a) ∨
     (ctx_Value (Stmt_Context (DB_Statement db)) ContextKeyEmail = ANil ∧
      UserId a = "ctx-nonspecified")).
Proof.
  apply (appended_row_describes_stored_row "UPDATE" Update
           (operation (VStruct (widget "42" "a")) alice) widget_world
           (Update (operation (VStruct (widget "42" "a")) alice) widget_world).2
           (Update (operation (VStruct (widget "42" "a")) alice) widget_world).1).
  - unfold hooks. apply elem_of_cons. right. apply elem_of_cons. by left.
  - apply surjective_pairing.
  - reflexivity.
Defined.

(** ** Values that are not structs *)

(** X3.  Outside a dry run, an operation whose in-flight value is not a
    struct (a slice of a batch operation, a map) is never audited: no hook
    appends a row for it or touches the business tables.  The hook returns
    normally, unless the value is a slice and the storage holds a row under
    the empty key of its table: the read then has a row to scan into the
    slice, and panics. *)
Theorem non_struct_values_not_audited (op : string) (h : DB -> Go unit)
    (db : DB) (w w' : World) (o : Outcome unit) :
  (op, h) ∈ hooks →
  Value_Kind (Stmt_ReflectValue (DB_Statement db)) ≠ Struct →
  DB_DryRun db = false →
  h db w = (o, w') →
  audit_logs w' = audit_logs w ∧ tables w' = tables w ∧
  (o = Returned tt ∨
   ∃ msg n t es row,
     o = Panicked msg ∧
     Stmt_ReflectValue (DB_Statement db) = VSlice n t es ∧
     read_fault w = None ∧ find_row w t "" = Some row) ∧
  (∀ n t es row,
     Stmt_ReflectValue (DB_Statement db) = VSlice n t es →
     hook_guard db = false → read_fault w = None →
     find_row w t "" = Some row →
     ∃ msg, o = Panicked msg).
Proof.
  intros Hh Hk Hd Hrun. rewrite (hooks_are_hook _ _ Hh) in Hrun.
  pose proof (hook_run_of _ _ _ _ _ Hrun) as Hr.
  assert (∀ m w1, hook_guard db = false →
            getDataBeforeOperation db w ≠ (Returned (m, None), w1)) as Hno.
  { intros m w1 Hg Hdata.
    destruct (capture_inv _ _ _ _ Hdata) as [_ [[[He|Hd'] _]|Hfound]].
    - by destruct He; apply hook_guard_false.
    - congruence.
    - destruct Hfound as (_ & _ & e & row & Hv & _). rewrite Hv in Hk.
      by destruct Hk. }
  split; [| split; [| split]].
  - destruct (HookRun_world _ _ _ _ _ Hr) as (_ & _ & _ & [Ha|(a & Ha & _)]);
      [done|].
    destruct (HookRun_appended _ _ _ _ _ _ Hr Ha)
      as (m & _ & _ & _ & _ & Hg & _ & Hdata & _).
    by destruct (Hno _ _ Hg Hdata).
  - by destruct (HookRun_world _ _ _ _ _ Hr) as (Ht & _).
  - destruct Hr as [|msg w1 Hg Hdata| | | | | | |];
      try (exfalso; by eapply Hno); try by left.
    right. apply capture_panic_inv in Hdata
      as (_ & _ & _ & Hrf & n & t & es & row & Hv & Hrow).
    by exists msg, n, t, es, row.
  - intros n t es row Hv Hg Hrf Hrow.
    unfold hook in Hrun. rewrite Hg in Hrun. go_unfold.
    rewrite (capture_panics db w n t es row (hook_guard_false _ Hg) Hd Hrf Hv Hrow)
      in Hrun.
    inversion Hrun. by eexists.
Qed.

Lemma non_struct_values_not_audited_witness :
  let db := operation (VSlice "Widget" "widgets" [widget "42" "a"]) alice in
  let w := put_row "widgets" (widget "" "x") widget_world in
  audit_logs (Create db w).2 = audit_logs w ∧
  ∃ msg, (Create db w).1 = Panicked msg.
Proof.
  cbn zeta.
  pose proof (non_struct_values_not_audited "CREATE" Create
                (operation (VSlice "Widget" "widgets" [widget "42" "a"]) alice)
                (put_row "widgets" (widget "" "x") widget_world) _ _
                ltac:(unfold hooks; apply elem_of_cons; by left)
                ltac:(discriminate) eq_refl (surjective_pairing _))
    as (Ha & _ & _ & Hp).
  split; [exact Ha|].
  apply (Hp "Widget" "widgets" [widget "42" "a"] (widget "" "x"));
    reflexivity.
Defined.

(** ** Panics *)

Lemma getKeyFromData_Panicked (data : gmap string Any) (msg : string) :
  getKeyFromData "id" data = Panicked msg →
  ∃ v, data !! "id" = Some v ∧ ∀ s, v ≠ AString s.
Proof.
  unfold getKeyFromData. destruct (data !! "id") as [v|]; [|done].
  intros H. exists v. split; [done|]. intros s ->. done.
Qed.

(** X4.  On a valid in-flight value a hook panics for one of four reasons
    only, each past the guard.  Either the snapshot read panics: a slice is
    in flight, outside a dry run, and the storage holds a row under the
    empty key of its table.  Or a snapshot was captured (or its capture
    skipped) without error and its ["id"] is not a string, or the statement
    has no schema, or the context carries under ["email"] a value that is
    not a string.  A hook that panics has inserted no audit row. *)
Theorem hook_panics_for_four_reasons (op : string) (h : DB -> Go unit)
    (db : DB) (w w' : World) (msg : string) :
  (op, h) ∈ hooks → h db w = (Panicked msg, w') →
  hook_guard db = false ∧ audit_logs w' = audit_logs w ∧
  ((∃ n t es row,
      Stmt_ReflectValue (DB_Statement db) = VSlice n t es ∧
      DB_DryRun db = false ∧ read_fault w = None ∧
      find_row w t "" = Some row) ∨
   ∃ m w1,
     getDataBeforeOperation db w = (Returned (m, None), w1) ∧
     ((∃ v, m !! "id" = Some v ∧ ∀ s, v ≠ AString s) ∨
      Stmt_Schema (DB_Statement db) = None ∨
      (ctx_Value (Stmt_Context (DB_Statement db)) ContextKeyEmail ≠ ANil ∧
       ∀ s, ctx_Value (Stmt_Context (DB_Statement db)) ContextKeyEmail
            ≠ AString s))).
Proof.
  intros Hh Hrun. rewrite (hooks_are_hook _ _ Hh) in Hrun.
  apply hook_run_of in Hrun.
  destruct (HookRun_world _ _ _ _ _ Hrun) as (_ & _ & _ & [Ha|(a & _ & Ho)]);
    [| done].
  inversion Hrun; subst; (split; [done|]); (split; [done|]).
  - left.
    match goal with
    | H : getDataBeforeOperation _ _ = _ |- _ =>
        apply capture_panic_inv in H
          as (_ & _ & Hd & Hrf & n & t & es & row & Hv & Hrow)
    end.
    by exists n, t, es, row.
  - right. eexists _, _. split; [eassumption|].
    left. by apply getKeyFromData_Panicked with msg.
  - right. eexists _, _. split; [eassumption|]. right. by left.
  - right. eexists _, _. split; [eassumption|]. right. right.
    match goal with
    | H : getCurrentUser _ _ = _ |- _ =>
        by apply getCurrentUser_Panicked in H as (_ & ? & ?)
    end.
Qed.

Lemma hook_panics_for_four_reasons_witness :
  let db := operation (VSlice "Widget" "widgets" [widget "42" "a"]) alice in
  let w := put_row "widgets" (widget "" "x") widget_world in
  hook_guard db = false ∧ audit_logs (Update db w).2 = audit_logs w ∧
  ((∃ n t es row,
      Stmt_ReflectValue (DB_Statement db) = VSlice n t es ∧
      DB_DryRun db = false ∧ read_fault w = None ∧
      find_row w t "" = Some row) ∨
   ∃ m w1,
     getDataBeforeOperation db w = (Returned (m, None), w1) ∧
     ((∃ v, m !! "id" = Some v ∧ ∀ s, v ≠ AString s) ∨
      Stmt_Schema (DB_Statement db) = None ∨
      (ctx_Value (Stmt_Context (DB_Statement db)) ContextKeyEmail ≠ ANil ∧
       ∀ s, ctx_Value (Stmt_Context (DB_Statement db)) ContextKeyEmail
            ≠ AString s))).
Proof.
  apply (hook_panics_for_four_reasons "UPDATE" Update
           (operation (VSlice "Widget" "widgets" [widget "42" "a"]) alice)
           (put_row "widgets" (widget "" "x") widget_world)
           (Update (operation (VSlice "Widget" "widgets" [widget "42" "a"]) alice)
              (put_row "widgets" (widget "" "x") widget_world)).2
           scan_panic).
  - unfold hooks. apply elem_of_cons. right. apply elem_of_cons. by left.
  - reflexivity.
Defined.

(** X5.  A context that carries under ["email"] a value that is not a
    string makes every hook that gets past its guard and its capture panic:
    no audit row is inserted, and the panic unwinds into the mutation that
    fired the hook. *)
Theorem hook_panics_on_non_string_actor (op : string) (h : DB -> Go unit)
    (db : DB) (w w1 : World) (m : gmap string Any) :
  (op, h) ∈ hooks →
  hook_guard db = false →
  getDataBeforeOperation db w = (Returned (m, None), w1) →
  ctx_Value (Stmt_Context (DB_Statement db)) ContextKeyEmail ≠ ANil →
  (∀ s, ctx_Value (Stmt_Context (DB_Statement db)) ContextKeyEmail ≠ AString s) →
  ∃ msg w',
    h db w = (Panicked msg, w') ∧ audit_logs w' = audit_logs w ∧
    ∀ name post, Execute ((name, callback_of h) :: post) db w = (Panicked msg, w').
Proof.
  intros Hh Hg Hdata Hnil Hstr. rewrite (hooks_are_hook _ _ Hh).
  destruct (hook op db w) as [o w'] eqn:Hrun.
  pose proof (hook_run_of _ _ _ _ _ Hrun) as Hr.
  destruct (HookRun_world _ _ _ _ _ Hr) as (_ & _ & _ & Hlogs).
  assert (∃ msg, o = Panicked msg) as [msg ->].
  { destruct Hr; try (by eexists); try congruence;
      repeat match goal with
      | H : getDataBeforeOperation _ _ = _ |- _ =>
          rewrite Hdata in H; inversion H; subst; clear H
      end;
      match goal with
      | H : getCurrentUser _ _ = (Returned _, _) |- _ =>
          apply getCurrentUser_Returned in H as [H|[H _]];
            exfalso; [by eapply Hstr | by apply Hnil]
      end. }
  exists msg, w'. split; [done|]. split.
  - by destruct Hlogs as [Ha|(a & _ & Ho)].
  - intros name post. cbn [Execute]. unfold callback_of. by rewrite Hrun.
Qed.

Lemma hook_panics_on_non_string_actor_witness :
  let db := operation (VStruct (widget "42" "a")) numbered in
  ∃ msg w',
    Update db widget_world = (Panicked msg, w') ∧
    audit_logs w' = audit_logs widget_world ∧
    ∀ name post,
      Execute ((name, callback_of Update) :: post) db widget_world
      = (Panicked msg, w').
Proof.
  apply (hook_panics_on_non_string_actor "UPDATE" Update
           (operation (VStruct (widget "42" "a")) numbered)
           widget_world widget_world (entity_fields (widget "42" "a"))).
  - unfold hooks. apply elem_of_cons. right. apply elem_of_cons. by left.
  - reflexivity.
  - reflexivity.
  - vm_compute. discriminate.
  - intros s. vm_compute. discriminate.
Defined.

(** ** The key of the actor *)

(** X6.  Identity resolution looks at the binding of [ContextKeyEmail]
    only.  A value bound under any other key, the plain string ["email"]
    included, is not seen; the innermost binding of [ContextKeyEmail] wins
    over whatever the context held before; and [String] gives back the text
    a [ContextKey] was made from. *)
Theorem actor_is_read_under_ContextKeyEmail (ctx : Context) (k : Key) (v : Any)
    (s : string) (w : World) :
  k ≠ ContextKeyEmail →
  getCurrentUser (WithValue ctx k v) w = getCurrentUser ctx w ∧
  getCurrentUser (WithValue (WithValue ctx ContextKeyEmail (AString s)) k v) w
  = (Returned s, w) ∧
  string_key "email" ≠ ContextKeyEmail ∧
  ContextKey_String (ContextKey s) = s.
Proof.
  intros Hk. unfold getCurrentUser, WithValue. cbn [ctx_Value].
  repeat case_decide; try done.
Qed.

Lemma actor_is_read_under_ContextKeyEmail_witness :
  getCurrentUser (WithValue Background (string_key "email") (AString "bob")) empty_world
  = getCurrentUser Background empty_world ∧
  getCurrentUser
    (WithValue (WithValue Background ContextKeyEmail (AString "alice"))
       (string_key "email") (AString "bob")) empty_world
  = (Returned "alice", empty_world) ∧
  string_key "email" ≠ ContextKeyEmail ∧
  ContextKey_String (ContextKey "alice") = "alice".
Proof.
  apply (actor_is_read_under_ContextKeyEmail Background (string_key "email")
           (AString "bob") "alice" empty_world).
  discriminate.
Defined.

(** ** The object id and the JSON names of the row *)

Lemma entity_fields_no_member (row : Entity) (k : string) :
  (∀ f, f ∈ e_fields row → f_json f ≠ Some k) →
  entity_fields row !! k = None.
Proof.
  unfold entity_fields. intros Hno.
  apply not_elem_of_list_to_map_1. intros Hin.
  apply list_elem_of_fmap in Hin as ([k' v] & -> & Hin).
  apply list_elem_of_omap in Hin as (f & Hf & Hmem).
  unfold field_member in Hmem.
  destruct (f_json f) as [j|] eqn:Hj; [|done].
  inversion Hmem; subst. by apply (Hno f).
Qed.

(** X7.  The object id of an audit row is the JSON member ["id"] of the
    stored row, not its Go field [Id]: when no field of the stored row is
    encoded under the name ["id"] (a field [Id] without a JSON tag is
    encoded as ["Id"]), the row a hook appends has an empty object id,
    although the row was found under its key. *)
Theorem object_id_empty_without_json_id (op : string) (h : DB -> Go unit)
    (db : DB) (w w' : World) (o : Outcome unit) (a : AuditLog) (e row : Entity) :
  (op, h) ∈ hooks → h db w = (o, w') →
  audit_logs w' = (audit_logs w ++ [a])%list →
  Stmt_ReflectValue (DB_Statement db) = VStruct e →
  find_row w (e_table e) (primaryKeyValue (VStruct e)) = Some row →
  (∀ f, f ∈ e_fields row → f_json f ≠ Some "id") →
  ObjectId a = "" ∧ Data a = Encoded (AMap (entity_fields row)).
Proof.
  intros Hh Hrun Happ Hv Hrow Hno. rewrite (hooks_are_hook _ _ Hh) in Hrun.
  apply hook_run_of in Hrun.
  destruct (HookRun_appended _ _ _ _ _ _ Hrun Happ)
    as (m & w2 & objId & user & s & Hg & Hd & Hdata & Hid & Hs & Huser & ->).
  destruct (capture_inv _ _ _ _ Hdata) as [_ [[[He|Hd'] _]|Hfound]].
  { by destruct He; apply hook_guard_false. }
  { congruence. }
  destruct Hfound as (_ & _ & e' & row' & Hv' & _ & Hrow' & Henc & ->).
  rewrite Hv in Hv'. inversion Hv'; subst e'.
  rewrite Hrow in Hrow'. inversion Hrow'; subst row'. cbn. split.
  - unfold getKeyFromData in Hid.
    rewrite (entity_fields_no_member row "id" Hno) in Hid. by inversion Hid.
  - unfold prepareData, json_Marshal. by rewrite Henc.
Qed.

Lemma object_id_empty_without_json_id_witness :
  let db := note_operation (VStruct (note "n1" "hello")) alice in
  let w := put_row "notes" (note "n1" "hello") empty_world in
  let a := mkAuditLog uuid_Nil "notes" "CREATE" ""
             (Encoded (AMap (entity_fields (note "n1" "hello"))))
             "alice@example.com" 0 in
  ObjectId a = "" ∧ Data a = Encoded (AMap (entity_fields (note "n1" "hello"))).
Proof.
  apply (object_id_empty_without_json_id "CREATE" Create
           (note_operation (VStruct (note "n1" "hello")) alice)
           (put_row "notes" (note "n1" "hello") empty_world)
           (Create (note_operation (VStruct (note "n1" "hello")) alice)
              (put_row "notes" (note "n1" "hello") empty_world)).2
           (Create (note_operation (VStruct (note "n1" "hello")) alice)
              (put_row "notes" (note "n1" "hello") empty_world)).1
           _ (note "n1" "hello") (note "n1" "hello")).
  - unfold hooks. apply elem_of_cons. by left.
  - apply surjective_pairing.
  - reflexivity.
  - reflexivity.
  - reflexivity.
  - intros f Hf. unfold note in Hf. cbn in Hf.
    repeat (apply elem_of_cons in Hf as [->|Hf]; [discriminate|]).
    by apply elem_of_nil in Hf.
Defined.

(** ** Registration *)

Lemma insert_before_sublist (anchor : string) (c : string * Callback) (p : Processor) :
  sublist p (insert_before anchor c p) ∧
  length (insert_before anchor c p) = S (length p) ∧
  c ∈ insert_before anchor c p ∧
  ∀ c', c' ∈ insert_before anchor c p → c' = c ∨ c' ∈ p.
Proof.
  induction p as [|c0 p (IHs & IHl & IHc & IHe)]; cbn.
  - repeat split; [by constructor | by apply list_elem_of_singleton |].
    intros c' Hc'. left. by apply list_elem_of_singleton.
  - case_bool_decide; cbn.
    + repeat split.
      * apply sublist_cons. reflexivity.
      * apply elem_of_cons. by left.
      * intros c' Hc'. apply elem_of_cons in Hc' as [->|Hc']; auto.
    + repeat split.
      * by apply sublist_skip.
      * by rewrite IHl.
      * apply elem_of_cons. by right.
      * intros c' Hc'. apply elem_of_cons in Hc' as [->|Hc'].
        -- right. apply elem_of_cons. by left.
        -- destruct (IHe _ Hc') as [->|Hin]; [by left|].
           right. apply elem_of_cons. by right.
Qed.

(** Replacing the callback of a name by the callback it has changes
    nothing. *)
Lemma replace_callback_same (name : string) (fn : Callback) (p : Processor) :
  (∀ c, c ∈ p → c.1 = name → c = (name, fn)) →
  replace_callback name fn p = p.
Proof.
  unfold replace_callback. induction p as [|c p IH]; cbn; intros Hp; [done|].
  rewrite IH by (intros c' Hc'; apply Hp, elem_of_cons; by right).
  case_bool_decide as Hn; [|done].
  by rewrite <- (Hp c (list_elem_of_here _ _) Hn).
Qed.

Lemma fresh_name (name : string) (p : Processor) (c : string * Callback) :
  name ∉ p.*1 → c ∈ p → c.1 ≠ name.
Proof.
  intros Hfresh Hc Hn. apply Hfresh. rewrite <- Hn.
  apply list_elem_of_fmap. by exists c.
Qed.

(** X8.  On chains that hold none of the names of the hooks, registration
    returns no error; the hooks of create and update are put at the end of
    their chains, the hook of delete is added to its chain, whose callbacks
    keep their order.  Registering a second time returns no error either and
    leaves the three chains exactly as the first registration made them. *)
Theorem RegisterCallbacks_once_and_again (cbs : Callbacks) :
  "custom_plugin:create_audit_log" ∉ (cb_Create cbs).*1 →
  "custom_plugin:update_audit_log" ∉ (cb_Update cbs).*1 →
  "custom_plugin:delete_audit_log" ∉ (cb_Delete cbs).*1 →
  let out := RegisterCallbacks cbs in
  out.2 = None ∧
  cb_Create out.1
  = (cb_Create cbs ++ [("custom_plugin:create_audit_log", callback_of Create)])%list ∧
  cb_Update out.1
  = (cb_Update cbs ++ [("custom_plugin:update_audit_log", callback_of Update)])%list ∧
  sublist (cb_Delete cbs) (cb_Delete out.1) ∧
  length (cb_Delete out.1) = S (length (cb_Delete cbs)) ∧
  ("custom_plugin:delete_audit_log", callback_of Delete) ∈ cb_Delete out.1 ∧
  RegisterCallbacks out.1 = (out.1, None).
Proof.
  intros Hc Hu Hd.
  pose proof (insert_before_sublist "gorm:delete"
    ("custom_plugin:delete_audit_log", callback_of Delete) (cb_Delete cbs))
    as (Hds & Hdl & Hdc & Hde).
  assert (RegisterCallbacks cbs
          = (mkCallbacks
               (cb_Create cbs ++
                  [("custom_plugin:create_audit_log", callback_of Create)])%list
               (cb_Update cbs ++
                  [("custom_plugin:update_audit_log", callback_of Update)])%list
               (insert_before "gorm:delete"
                  ("custom_plugin:delete_audit_log", callback_of Delete)
                  (cb_Delete cbs)), None)) as Hreg.
  { unfold RegisterCallbacks, Register_After, Register_Before. cbn.
    by rewrite !bool_decide_eq_false_2 by done. }
  cbn zeta. rewrite Hreg. cbn [fst snd cb_Create cb_Update cb_Delete].
  repeat split; try done.
  unfold RegisterCallbacks, Register_After, Register_Before.
  cbn [cb_Create cb_Update cb_Delete].
  rewrite !bool_decide_eq_true_2.
  - rewrite !replace_callback_same; [done | ..].
    + intros c Hin Hn. destruct (Hde c Hin) as [->|Hin']; [done|].
      by destruct (fresh_name _ _ _ Hd Hin').
    + intros c Hin Hn. apply elem_of_app in Hin as [Hin|Hin].
      * by destruct (fresh_name _ _ _ Hu Hin).
      * by apply list_elem_of_singleton in Hin as ->.
    + intros c Hin Hn. apply elem_of_app in Hin as [Hin|Hin].
      * by destruct (fresh_name _ _ _ Hc Hin).
      * by apply list_elem_of_singleton in Hin as ->.
  - apply list_elem_of_fmap. by eexists (_, _).
  - rewrite fmap_app. apply elem_of_app. right. cbn. by apply list_elem_of_singleton.
  - rewrite fmap_app. apply elem_of_app. right. cbn. by apply list_elem_of_singleton.
Qed.

Lemma RegisterCallbacks_once_and_again_witness :
  let out := RegisterCallbacks (default_callbacks "42") in
  out.2 = None ∧
  cb_Create out.1
  = [("gorm:create", gorm_save);
     ("custom_plugin:create_audit_log", callback_of Create)] ∧
  cb_Update out.1
  = [("gorm:update", gorm_save);
     ("custom_plugin:update_audit_log", callback_of Update)] ∧
  sublist (cb_Delete (default_callbacks "42")) (cb_Delete out.1) ∧
  length (cb_Delete out.1) = 2 ∧
  ("custom_plugin:delete_audit_log", callback_of Delete) ∈ cb_Delete out.1 ∧
  RegisterCallbacks out.1 = (out.1, None).
Proof.
  apply (RegisterCallbacks_once_and_again (default_callbacks "42"));
    by intros ?%list_elem_of_singleton.
Defined.

(** ** The data of a captured snapshot *)

(** X9.  The error [prepareData] drops cannot occur on a snapshot the
    reader has returned without error: such a snapshot always encodes, so
    the data of an audit row built from it are never the nil bytes. *)
Theorem captured_snapshot_always_encodes (db : DB) (w w1 : World)
    (m : gmap string Any) :
  getDataBeforeOperation db w = (Returned (m, None), w1) →
  prepareData m = Encoded (AMap m).
Proof.
  intros Hdata. unfold prepareData, json_Marshal.
  destruct (capture_inv _ _ _ _ Hdata) as [_ [[_ ->]|Hfound]].
  - cbn. by rewrite map_fold_empty.
  - destruct Hfound as (_ & _ & e & row & _ & _ & _ & Henc & ->).
    by rewrite Henc.
Qed.

Lemma captured_snapshot_always_encodes_witness :
  prepareData (entity_fields (widget "42" "a"))
  = Encoded (AMap (entity_fields (widget "42" "a"))).
Proof.
  apply (captured_snapshot_always_encodes
           (operation (VStruct (widget "42" "a")) alice) widget_world widget_world).
  reflexivity.
Defined.

(** ** What the snapshot reader writes *)

(** X10.  The snapshot reader writes nothing but the log.  On a dry run or
    a prior error it asks the storage nothing and returns the empty map
    without error.  The map it returns with an error is empty.  It logs one
    line exactly when the storage read returns an error; a row that fails
    to encode is returned as an error without a log line.  When a slice is
    in flight and the read has a row to scan, the reader panics, the world
    as it was. *)
Theorem snapshot_reader_writes_only_the_log (db : DB) (w w' : World)
    (o : Outcome (gmap string Any * option string)) :
  getDataBeforeOperation db w = (o, w') →
  (tables w' = tables w ∧ audit_logs w' = audit_logs w) ∧
  (DB_Error db ≠ None ∨ DB_DryRun db = true →
   o = Returned (∅, None) ∧ w' = w) ∧
  (∀ m e, o = Returned (m, Some e) → m = ∅) ∧
  (w' = w ∨
   ∃ e, o = Returned (∅, Some e) ∧
        session_First (reflect_TypeOf (Stmt_ReflectValue (DB_Statement db)))
          (primaryKeyValue (Stmt_ReflectValue (DB_Statement db))) w
        = (Returned (Err e), w) ∧
        w' = logged ("gorm callback: error while finding target object: " ++ e) w) ∧
  (∀ e,
     DB_Error db = None → DB_DryRun db = false →
     session_First (reflect_TypeOf (Stmt_ReflectValue (DB_Statement db)))
       (primaryKeyValue (Stmt_ReflectValue (DB_Statement db))) w
     = (Returned (Err e), w) →
     o = Returned (∅, Some e) ∧
     w' = logged ("gorm callback: error while finding target object: " ++ e) w) ∧
  (∀ n t es row,
     DB_Error db = None → DB_DryRun db = false → read_fault w = None →
     Stmt_ReflectValue (DB_Statement db) = VSlice n t es →
     find_row w t "" = Some row →
     ∃ msg, o = Panicked msg ∧ w' = w).
Proof.
  intros Hrun.
  split; [by apply getDataBeforeOperation_world in Hrun as (? & ? & _)|].
  split.
  { intros Hskip. rewrite (getDataBeforeOperation_skipped _ _ Hskip) in Hrun.
    by inversion Hrun. }
  split; [| split; [| split]].
  - intros m e ->. revert Hrun. unfold getDataBeforeOperation.
    destruct (bool_decide (DB_Error db = None) && negb (DB_DryRun db));
      [| intros H; by inversion H].
    go_unfold.
    destruct (session_First _ _ w) as [[[obj|err]|msg] w1];
      [| intros H; by inversion H ..].
    destruct (json_Marshal (fetched_tree obj)) as [doc|err];
      [| intros H; by inversion H].
    destruct doc; cbn [json_Unmarshal_map]; intros H; by inversion H.
  - revert Hrun. unfold getDataBeforeOperation.
    destruct (DB_Error db) as [err|] eqn:He.
    { rewrite bool_decide_eq_false_2 by done. intros H; inversion H. by left. }
    rewrite bool_decide_eq_true_2 by done.
    destruct (DB_DryRun db) eqn:Hd; cbn [andb negb];
      [intros H; inversion H; by left|].
    go_unfold.
    destruct (session_First _ _ w) as [[[obj|err]|msg] w1] eqn:Hread;
      pose proof (session_First_world _ _ _ _ _ Hread) as ->.
    + destruct (json_Marshal (fetched_tree obj)) as [doc|err];
        [| intros H; inversion H; by left].
      destruct (json_Unmarshal_map doc ∅) as [m [err|]];
        intros H; inversion H; by left.
    + intros H; inversion H; subst. right. by exists err.
    + intros H; inversion H. by left.
  - intros e He Hd Hread.
    rewrite (getDataBeforeOperation_read_failed db w e He Hd Hread) in Hrun.
    by inversion Hrun.
  - intros n t es row He Hd Hrf Hv Hrow.
    rewrite (capture_panics db w n t es row He Hd Hrf Hv Hrow) in Hrun.
    inversion Hrun. by eexists.
Qed.

Lemma snapshot_reader_writes_only_the_log_witness :
  let db := operation (VStruct (widget "7" "z")) alice in
  getDataBeforeOperation db widget_world
  = (Returned (∅, Some "record not found"),
     logged "gorm callback: error while finding target object: record not found"
       widget_world).
Proof.
  cbn zeta.
  pose proof (snapshot_reader_writes_only_the_log
                (operation (VStruct (widget "7" "z")) alice) widget_world _ _
                (surjective_pairing _)) as (_ & _ & _ & _ & Hlog & _).
  destruct (Hlog "record not found" eq_refl eq_refl eq_refl) as [Ho Hw].
  rewrite (surjective_pairing (getDataBeforeOperation _ _)).
  by rewrite Ho, Hw.
Defined.

(** ** Operations that end in error *)

Lemma unaudited_append (op name : string) (before : Processor) :
  unaudited_when_guarded before (before ++ [(name, callback_of (hook op))])%list.
Proof.
  intros db db1 w w1 Hrun Hg. apply or_comm, hook_guard_true in Hg.
  rewrite Execute_app, Hrun. cbn [Execute]. unfold callback_of.
  by rewrite (hook_guarded op db1 w1 Hg).
Qed.

(** X12.  Registered on chains that do not hold their names yet, the hooks
    of create and update leave an operation that ends its chain in error,
    or on the audit table, as it was without them: the chain with the hook
    ends with the handle and the world the chain without it ends with,
    wherever in the chain the error was raised. *)
Theorem failed_operation_runs_as_unaudited (cbs cbs' : Callbacks) :
  RegisterCallbacks cbs = (cbs', None) →
  "custom_plugin:create_audit_log" ∉ (cb_Create cbs).*1 →
  "custom_plugin:update_audit_log" ∉ (cb_Update cbs).*1 →
  unaudited_when_guarded (cb_Create cbs) (cb_Create cbs') ∧
  unaudited_when_guarded (cb_Update cbs) (cb_Update cbs').
Proof.
  intros Hreg Hc Hu. apply RegisterCallbacks_chains in Hreg as (Hc' & Hu' & _).
  rewrite (Hc' Hc), (Hu' Hu). split; apply unaudited_append.
Qed.

Lemma failed_operation_runs_as_unaudited_witness :
  let cbs := mkCallbacks [("gorm:create", failing_callback "duplicate key")]
               [] [] in
  let db := operation (VStruct (widget "42" "a")) alice in
  Execute (cb_Create (RegisterCallbacks cbs).1) db widget_world
  = Execute (cb_Create cbs) db widget_world.
Proof.
  cbn zeta.
  pose proof (failed_operation_runs_as_unaudited
                (mkCallbacks [("gorm:create", failing_callback "duplicate key")]
                   [] [])
                _ eq_refl) as Hreg.
  destruct Hreg as [Hc _].
  { by intros ?%list_elem_of_singleton. }
  { apply not_elem_of_nil. }
  apply (Hc (operation (VStruct (widget "42" "a")) alice)
           (mkDB (DB_Statement (operation (VStruct (widget "42" "a")) alice))
              (Some "duplicate key") false)
           widget_world widget_world).
  - reflexivity.
  - left. discriminate.
Defined.
